(** * openag_ui: the action-driven update core

    A shallow embedding of the two orchestrators of the repository, the
    environmental data point dashboard ([Dashboard]) and the recipes
    manager ([Recipes]), with the properties of their [update] functions.

    The source is JavaScript in the model-update-view style of reflex:
    [update(model, action)] returns the pair [[next, effects]].  Models are
    records, actions are tagged unions (the [type] field is the
    constructor), effects are descriptions of pending work. *)

From stdpp Require Import gmap strings list fin_maps.

Set Default Proof Using "Type".

(** ** JavaScript values and objects *)

(** The values a property of a JSON document holds.  The code under study
    does no arithmetic: a number is kept as an integer. *)
Inductive jsval :=
| JNull
| JBool (b : bool)
| JNum (n : Z)
| JStr (s : string).

#[global] Instance jsval_eq_dec : EqDecision jsval.
Proof. solve_decision. Defined.

(** [a === b] on the values above. *)
Definition strict_eq (a b : jsval) : bool := bool_decide (a = b).

(** An object read as a dictionary: its own properties.  [object !! key] is
    [None] where JavaScript reads [undefined]. *)
Abbreviation object := (gmap string jsval).

(** The record set of a view query: [{rows: [{value: ...}, ...]}]. *)
Record Row := { value : object }.
Record RecordSet := { rows : list Row }.

(** A document of the recipes database.  Documents are objects with an
    identity: [address] is the address of the allocation, [_id] and [fields]
    are its properties.  No function of the module assigns to a property of
    a document, so the properties travel with the reference. *)
Definition addr := positive.
Record Document := { address : addr; _id : string; fields : object }.

Record Error := { message : string }.

(** ** Result (common/result) *)

Module Result.

Inductive t (V E : Type) :=
| Ok (value : V)
| Error (error : E).
Arguments Ok {V E} value.
Arguments Error {V E} error.

Definition isOk {V E} (result : t V E) : bool :=
  match result with Ok _ => true | Error _ => false end.

(** Modelled from the spec: [Result.updater] (common/result is not in
    src/).  Section 3 has Result as the sum of Ok(value) and Error(error);
    the updater made of two handlers runs the first on an Ok and the
    second on an Error. *)
Definition updater {M V E R} (ok : M -> V -> R) (error : M -> E -> R)
  : M -> t V E -> R :=
  fun model result =>
    match result with
    | Ok value => ok model value
    | Error err => error model err
    end.

End Result.

Abbreviation Result := Result.t.

(** ** Effects (reflex) *)

(** What the external runner is asked to do, by the type of its answer. *)
Inductive PouchDB := NewPouchDB (name : string).

Record PutConfirmation := { put_id : string; put_rev : string }.

Inductive IO : Type -> Type :=
| HttpGet (url : string) : IO (Result RecordSet Error)
| DbRestore (db : PouchDB) : IO (Result (list Document) Error)
| DbPut (db : PouchDB) (doc : Document) : IO (Result PutConfirmation Error)
| DbSync (db : PouchDB) (origin : string) : IO (Result unit Error).

Module Effects.

(** [none], [receive(action)], a task with the function that wraps its
    answer into an action, and [batch([...])]. *)
#[warnings="-register-all"]
Inductive t (A : Type) : Type :=
| none
| receive (action : A)
| task {R : Type} (io : IO R) (tag : R -> A)
| batch (effects : list (t A)).
Arguments none {A}.
Arguments receive {A} action.
Arguments task {A R} io tag.
Arguments batch {A} effects.

(** [fx.map(f)] *)
Fixpoint map {A B} (f : A -> B) (fx : t A) : t B :=
  match fx with
  | none => none
  | receive action => receive (f action)
  | task io tag => task io (fun r => f (tag r))
  | batch effects => batch (List.map (map f) effects)
  end.

(** The leaves of an effect, in order: the actions to receive and the
    tasks to run. *)
Fixpoint leaves {A} (fx : t A) : list (t A) :=
  match fx with
  | none => []
  | batch effects => List.concat (List.map leaves effects)
  | leaf => [leaf]
  end.

Definition isPut {A} (fx : t A) : bool :=
  match fx with
  | task io _ => match io with DbPut _ _ => true | _ => false end
  | _ => false
  end.

Definition isRestore {A} (fx : t A) : bool :=
  match fx with
  | task io _ => match io with DbRestore _ => true | _ => false end
  | _ => false
  end.

Definition isSync {A} (fx : t A) : bool :=
  match fx with
  | task io _ => match io with DbSync _ _ => true | _ => false end
  | _ => false
  end.

End Effects.

Abbreviation Effects := Effects.t.

(** ** The heap of documents *)

(** A JavaScript computation runs over the heap.  Only documents are given
    an address, so the heap is kept as the next free address; models,
    actions and effects are compared by value. *)
Definition Heap := addr.

Definition JS (A : Type) : Type := Heap -> A * Heap.

Definition ret {A} (a : A) : JS A := fun heap => (a, heap).

Definition bind {A B} (c : JS A) (k : A -> JS B) : JS B :=
  fun heap => let '(a, heap') := c heap in k a heap'.

Notation "'do' x <- c ; k" := (bind c (fun x => k))
  (at level 10, x name, c at level 100, k at level 200, only parsing).
Notation "'do' ' p <- c ; k" := (bind c (fun x => match x with p => k end))
  (at level 10, p pattern, c at level 100, k at level 200, only parsing).

(** A document is allocated when its address is below the next free one. *)
Definition allocated (heap : Heap) (doc : Document) : Prop :=
  (address doc < heap)%positive.

(** ** Prelude (common/prelude, lang/functional) *)

Definition compose {A B C} (f : B -> C) (g : A -> B) : A -> C :=
  fun x => f (g x).

(** Modelled from the spec: [merge({}, changes)] (common/prelude is not in
    src/; section 9 has merge as structural copy-on-write).  The object
    literal is a new object, and it receives the properties of [changes].
    A missing [changes] ([undefined]) leaves the new object empty: [None]
    stands for the object with no property. *)
Definition merge_empty (changes : option Document) : JS (option Document) :=
  fun heap =>
    (match changes with
     | Some doc => Some {| address := heap; _id := _id doc; fields := fields doc |}
     | None => None
     end,
     Pos.succ heap).

(** Modelled from the spec: [batch(update, model, actions)] (common/prelude
    is not in src/).  The actions are sent to [update] one after the other,
    each on the state the one before returned; the effects are collected in
    the same order and returned as one [Effects.batch]. *)
Fixpoint batch_loop {S A} (update : S -> A -> JS (S * Effects A))
    (model : S) (actions : list A) (effects : list (Effects A))
  : JS (S * Effects A) :=
  match actions with
  | [] => ret (model, Effects.batch effects)
  | action :: rest =>
      do '(state, fx) <- update model action;
      batch_loop update state rest (effects ++ [fx])
  end.

Definition batch {S A} (update : S -> A -> JS (S * Effects A))
    (model : S) (actions : list A) : JS (S * Effects A) :=
  batch_loop update model actions [].

(** ** Cursor (common/cursor) *)

(** Modelled from the spec: [cursor({get, set, update, tag})] (common/cursor
    is not in src/).  Section 4.1: read the child with [get], run the
    child's [update] on the child's action, write the child back with
    [set], map the child's effect through [tag]. *)
Definition cursor {Parent Child ChildAction ParentAction}
    (get : Parent -> Child) (set : Parent -> Child -> Parent)
    (update : Child -> ChildAction -> Child * Effects ChildAction)
    (tag : ChildAction -> ParentAction)
  : Parent -> ChildAction -> Parent * Effects ParentAction :=
  fun model action =>
    let '(next, fx) := update (get model) action in
    (set model next, Effects.map tag fx).

(** ** Unknown (common/unknown) *)

Module Unknown.

(** Modelled from the spec: [Unknown.update] (common/unknown is not in
    src/).  Section 7: an unknown action is logged and does not alter the
    state. *)
Definition update {S A} (model : S) (action : A) : JS (S * Effects A) :=
  ret (model, Effects.none).

End Unknown.

(** ** Request (common/request) *)

Module Request.

(** Modelled from the spec: [Request.get(model, url)] (common/request is
    not in src/).  Section 6: a Get(url) effect whose result, a record
    set or an error, comes back wrapped by [tag]. *)
Definition get {S A} (tag : Result RecordSet Error -> A) (model : S) (url : string)
  : JS (S * Effects A) :=
  ret (model, Effects.task (HttpGet url) tag).

End Request.

(** ** The actions of the sub-models *)

(** The modules of the sub-models are not in src/.  Their actions are
    those that the two orchestrators build or look at. *)

Module Poll.
(** Modelled from the spec: the actions of the poll (common/poll is not in
    src/).  Section 4.3: ping, pong, miss. *)
Inductive Action := Ping | Pong | Miss.
End Poll.

Module EnvironmentalDataPoint.
Inductive Action := AddMany (value : list object).
End EnvironmentalDataPoint.

Module CurrentRecipe.
(** The payload is [None] where JavaScript passes [undefined]. *)
Inductive Action :=
| Start (value : option object)
| End (value : option object).
End CurrentRecipe.

Module Indexed.
Inductive Action := Activate (id : string).
End Indexed.

Module Banner.
Inductive Action :=
| AlertRefreshable (message : string)
| AlertDismissable (message : string).
End Banner.

Module Modal.
Inductive Action := Open | Close.
End Modal.

Module RecipesForm.
(** [Back], [Submitted] with its recipe, and the actions of any other
    type, which stay with the form. *)
Inductive Action (Local : Type) :=
| Back
| Submitted (recipe : Document)
| Other (action : Local).
Arguments Back {Local}.
Arguments Submitted {Local} recipe.
Arguments Other {Local} action.
End RecipesForm.

Module Recipe.
(** [Activate], and the actions of any other type. *)
Inductive Action (Local : Type) :=
| Activate
| Other (action : Local).
Arguments Activate {Local}.
Arguments Other {Local} action.
End Recipe.

(** ** Database (common/database) *)

Module Database.

(** Modelled from the spec: the gateway to the document store
    (common/database is not in src/).  Section 4.4: restore-all, put-one
    and sync-with-remote, each an effect that yields an Ok or an Error. *)
Definition restore (db : PouchDB) : Effects (Result (list Document) Error) :=
  Effects.task (DbRestore db) (fun result => result).

Definition put (db : PouchDB) (doc : Document)
  : Effects (Result PutConfirmation Error) :=
  Effects.task (DbPut db doc) (fun result => result).

Definition sync (db : PouchDB) (origin : string) : Effects (Result unit Error) :=
  Effects.task (DbSync db origin) (fun result => result).

End Database.

(** * environmental-data-points.js *)

Module Dashboard.

Definition RECIPE_START := "recipe_start".
Definition RECIPE_END := "recipe_end".
Definition AIR_TEMPERATURE := "air_temperature".
Definition WATER_TEMPERATURE := "water_temperature".

(** Matching functions *)

Definition matcher (key : string) (value : jsval) : object -> bool :=
  fun object =>
    match object !! key with
    | Some v => strict_eq v value
    | None => false
    end.

Definition isRecipeStart := matcher "variable" (JStr RECIPE_START).
Definition isRecipeEnd := matcher "variable" (JStr RECIPE_END).
Definition isAirTemperature := matcher "variable" (JStr AIR_TEMPERATURE).
Definition isWaterTemperature := matcher "variable" (JStr WATER_TEMPERATURE).

(** Actions and action tagging functions *)

Inductive Action :=
| CurrentRecipe (source : CurrentRecipe.Action)
| AirTemperature (source : EnvironmentalDataPoint.Action)
| WaterTemperature (source : EnvironmentalDataPoint.Action)
| Poll (source : Poll.Action)
| Get (url : string)
| Got (result : Result RecordSet Error)
| Restore (value : RecordSet).

Definition readDataPointFromRow (row : Row) : object := value row.

Definition readDataPoints (record : RecordSet) (predicate : object -> bool)
  : list object :=
  List.filter predicate (List.map readDataPointFromRow (rows record)).

(** [array.shift()]: the first element, [None] for [undefined] on an
    empty array, and what is left of the array. *)
Definition shift {A} (array : list A) : option A * list A :=
  match array with
  | [] => (None, [])
  | first :: rest => (Some first, rest)
  end.

Definition readMostRecentDataPoint (record : RecordSet)
    (predicate : object -> bool) : option object :=
  fst (shift (List.filter predicate (List.map readDataPointFromRow (rows record)))).

Section WithSubModels.

(** [Config.db_origin_environmental_data_point_latest] *)
Variable ORIGIN_LATEST : string.

(** The sub-models: their states and their update functions
    (common/poll, environmental-data-point and
    environmental-data-point/recipe are not in src/). *)
Context {PollModel DataPointModel CurrentRecipeModel : Type}.
Variable Poll_update
  : PollModel -> Poll.Action -> PollModel * Effects Poll.Action.
Variable EnvironmentalDataPoint_update
  : DataPointModel -> EnvironmentalDataPoint.Action
    -> DataPointModel * Effects EnvironmentalDataPoint.Action.
Variable CurrentRecipe_update
  : CurrentRecipeModel -> CurrentRecipe.Action
    -> CurrentRecipeModel * Effects CurrentRecipe.Action.

Definition GetLatest : Action := Get ORIGIN_LATEST.

Definition PollAction (action : Poll.Action) : Action :=
  match action with
  | Poll.Ping => GetLatest
  | _ => Poll action
  end.

Definition PongPoll := PollAction Poll.Pong.
Definition MissPoll := PollAction Poll.Miss.

Definition AirTemperatureAction := AirTemperature.
Definition WaterTemperatureAction := WaterTemperature.

Definition AddManyAirTemperatures :=
  compose AirTemperatureAction EnvironmentalDataPoint.AddMany.
Definition AddManyWaterTemperatures :=
  compose WaterTemperatureAction EnvironmentalDataPoint.AddMany.

Definition CurrentRecipeAction := CurrentRecipe.
Definition CurrentRecipeStart := compose CurrentRecipeAction CurrentRecipe.Start.
Definition CurrentRecipeEnd := compose CurrentRecipeAction CurrentRecipe.End.

(** Init and update *)

Record Model := {
  currentRecipe : CurrentRecipeModel;
  poll : PollModel;
  airTemperature : DataPointModel;
  waterTemperature : DataPointModel
}.

(** Modelled from the spec: [merge(model, {poll})] and its siblings
    (common/prelude is not in src/; section 9 has merge as structural
    copy-on-write): the model with the named field replaced, the model
    passed in being left as it was. *)
Definition merge_poll (model : Model) (poll' : PollModel) : Model :=
  {| currentRecipe := currentRecipe model; poll := poll';
     airTemperature := airTemperature model;
     waterTemperature := waterTemperature model |}.

Definition merge_airTemperature (model : Model) (airTemperature' : DataPointModel) : Model :=
  {| currentRecipe := currentRecipe model; poll := poll model;
     airTemperature := airTemperature';
     waterTemperature := waterTemperature model |}.

Definition merge_waterTemperature (model : Model) (waterTemperature' : DataPointModel) : Model :=
  {| currentRecipe := currentRecipe model; poll := poll model;
     airTemperature := airTemperature model;
     waterTemperature := waterTemperature' |}.

Definition merge_currentRecipe (model : Model) (currentRecipe' : CurrentRecipeModel) : Model :=
  {| currentRecipe := currentRecipe'; poll := poll model;
     airTemperature := airTemperature model;
     waterTemperature := waterTemperature model |}.

Definition updatePoll :=
  cursor poll merge_poll Poll_update PollAction.

Definition updateAirTemperature :=
  cursor airTemperature merge_airTemperature
    EnvironmentalDataPoint_update AirTemperatureAction.

Definition updateWaterTemperature :=
  cursor waterTemperature merge_waterTemperature
    EnvironmentalDataPoint_update WaterTemperatureAction.

Definition updateCurrentRecipe :=
  cursor currentRecipe merge_currentRecipe
    CurrentRecipe_update CurrentRecipeAction.

(** The array of actions that [restore] hands to [batch]. *)
Definition restoreActions (record : RecordSet) : list Action :=
  [ AddManyAirTemperatures (readDataPoints record isAirTemperature);
    AddManyWaterTemperatures (readDataPoints record isWaterTemperature);
    CurrentRecipeStart (readMostRecentDataPoint record isRecipeStart) ].

Section Handlers.

(** The handlers call [update], which the source defines below them:
    here [update] stands for that function. *)
Variable update : Model -> Action -> JS (Model * Effects Action).

Definition restore (model : Model) (record : RecordSet) :=
  batch update model (restoreActions record).

Definition gotOk (model : Model) (record : RecordSet) :=
  batch update model [Restore record; PongPoll].

Definition gotError (model : Model) (error : Error) :=
  update model MissPoll.

(** The body of [update].  Every constructor of [Action] has its
    branch: the last branch of the source, [Unknown.update], is for
    objects of another type. *)
Definition update_body (model : Model) (action : Action)
  : JS (Model * Effects Action) :=
  match action with
  | CurrentRecipe source => ret (updateCurrentRecipe model source)
  | AirTemperature source => ret (updateAirTemperature model source)
  | WaterTemperature source => ret (updateWaterTemperature model source)
  | Poll source => ret (updatePoll model source)
  | Get url => Request.get Got model url
  | Got result =>
      match result with
      | Result.Ok value => gotOk model value
      | Result.Error error => gotError model error
      end
  | Restore value => restore model value
  end.

End Handlers.

(** [update] calls itself through [gotOk], [gotError] and [restore], to
    a depth of three: [update_unfold] below shows that [update] is the
    function its body defines. *)
Fixpoint update_fuel (fuel : nat) : Model -> Action -> JS (Model * Effects Action) :=
  match fuel with
  | O => fun model action => Unknown.update model action
  | S fuel' => update_body (update_fuel fuel')
  end.

Definition update : Model -> Action -> JS (Model * Effects Action) :=
  update_fuel 3.

(** [init]: the initial states of the sub-models (their [init] functions
    and the table of titles, environmental-data-point/lang, are not in
    src/) and, after their effects, the first request for the latest
    record set. *)
Context {Title : Type}.
Variable LANG : string -> Title.
Variable Poll_init : PollModel * Effects Poll.Action.
Variable CurrentRecipe_init : CurrentRecipeModel * Effects CurrentRecipe.Action.
Variable EnvironmentalDataPoint_init
  : string -> Title -> DataPointModel * Effects EnvironmentalDataPoint.Action.

Definition init : Model * Effects Action :=
  let '(poll, pollFx) := Poll_init in
  let '(currentRecipe, currentRecipeFx) := CurrentRecipe_init in
  let '(airTemperature, airTemperatureFx) :=
    EnvironmentalDataPoint_init AIR_TEMPERATURE (LANG AIR_TEMPERATURE) in
  let '(waterTemperature, waterTemperatureFx) :=
    EnvironmentalDataPoint_init WATER_TEMPERATURE (LANG WATER_TEMPERATURE) in
  ({| currentRecipe := currentRecipe;
      poll := poll;
      airTemperature := airTemperature;
      waterTemperature := waterTemperature |},
   Effects.batch
     [ Effects.map CurrentRecipeAction currentRecipeFx;
       Effects.map PollAction pollFx;
       Effects.map AirTemperatureAction airTemperatureFx;
       Effects.map WaterTemperatureAction waterTemperatureFx;
       Effects.receive GetLatest ]).

End WithSubModels.

Arguments Model : clear implicits.

End Dashboard.

(** * recipes.js *)

Module Recipes.

Definition getPouchID : Document -> string := _id.

(** Modelled from the spec: [Indexed.indexWith(entities, keyFn)]
    (common/indexed is not in src/).  Section 4.2: a fresh mapping from
    ID to entity, built from a sequence. *)
Definition indexWith {E} (entities : list E) (keyFn : E -> string) : gmap string E :=
  fold_left (fun index entity => <[keyFn entity := entity]> index) entities ∅.

(** A string or [null], read as a condition: [null] and the empty string
    are false. *)
Definition truthy (value : option string) : bool :=
  match value with
  | Some text => negb (String.eqb text "")
  | None => false
  end.

Section WithSubModels.

(** [Config.recipes.local], [Config.recipes.origin], the template
    renderer (common/stache) and the localisation (common/lang). *)
Variables recipes_local recipes_origin : string.
Variable Template_render : string -> string -> string.
Variable localize : string -> string.

(** The sub-models (common/banner, recipes/form, recipe and common/modal
    are not in src/): their states, the actions of the form and of a
    recipe that the manager does not look at, and their update
    functions. *)
Context {BannerModel FormModel FormLocal RecipeLocal : Type}.

Definition DB := NewPouchDB recipes_local.

(** Actions and tagging functions *)

Inductive Action :=
| Indexed (source : Indexed.Action)
| Banner (source : Banner.Action)
| RecipesForm (source : RecipesForm.Action FormLocal)
| Modal (source : Modal.Action)
| NoOp
| Put (value : Document)
| Putted (result : Result PutConfirmation Error)
| RestoreRecipes
| RestoredRecipes (result : Result (list Document) Error)
| StartByID (id : string)
| ActivatePanel (id : option string)
| Sync
| Synced (result : Result unit Error)
| Recipe (id : string) (source : Recipe.Action RecipeLocal)
| Configure (origin : string)
| RequestStart (value : option Document).

Definition TagIndexed := Indexed.
Definition Activate := compose TagIndexed Indexed.Activate.
Definition TagModal := Modal.
Definition TagBanner := Banner.
Definition AlertRefreshable := compose TagBanner Banner.AlertRefreshable.
Definition AlertDismissable := compose TagBanner Banner.AlertDismissable.

Definition RecipesFormAction (action : RecipesForm.Action FormLocal) : Action :=
  match action with
  | RecipesForm.Back => ActivatePanel None
  | RecipesForm.Submitted recipe => Put recipe
  | _ => RecipesForm action
  end.

Definition RecipeAction (id : string) (action : Recipe.Action RecipeLocal) : Action :=
  match action with
  | Recipe.Activate => StartByID id
  | _ => Recipe id action
  end.

Definition ByID (id : string) := fun action => RecipeAction id action.

Definition Open := TagModal Modal.Open.
Definition Close := TagModal Modal.Close.

(** Model, update and init *)

Record Model := {
  active : option string;
  activePanel : option string;
  isOpen : bool;
  origin : option string;
  order : list string;
  entries : gmap string Document;
  recipesForm : FormModel;
  banner : BannerModel
}.

Variable Banner_init : BannerModel * Effects Banner.Action.
Variable Banner_update
  : BannerModel -> Banner.Action -> BannerModel * Effects Banner.Action.
Variable RecipesForm_init : FormModel * Effects (RecipesForm.Action FormLocal).
Variable RecipesForm_update
  : FormModel -> RecipesForm.Action FormLocal
    -> FormModel * Effects (RecipesForm.Action FormLocal).
Variable Modal_update : Model -> Modal.Action -> Model * Effects Modal.Action.
Variable Recipe_update
  : Document -> Recipe.Action RecipeLocal
    -> Document * Effects (Recipe.Action RecipeLocal).

Definition init : Model * Effects Action :=
  let '(recipesForm, recipesFormFx) := RecipesForm_init in
  let '(banner, bannerFx) := Banner_init in
  ({| active := None; activePanel := None; isOpen := false;
      origin := None; order := []; entries := ∅;
      recipesForm := recipesForm; banner := banner |},
   Effects.batch [ Effects.map RecipesFormAction recipesFormFx;
                   Effects.map TagBanner bannerFx ]).

(** Modelled from the spec: [merge(model, {...})] (common/prelude is not in
    src/; section 9 has merge as structural copy-on-write): the model with
    the named fields replaced, the model passed in being left as it was. *)
Definition merge_active (model : Model) (active' : option string) : Model :=
  {| active := active'; activePanel := activePanel model;
     isOpen := isOpen model; origin := origin model;
     order := order model; entries := entries model;
     recipesForm := recipesForm model; banner := banner model |}.

Definition merge_activePanel (model : Model) (activePanel' : option string) : Model :=
  {| active := active model; activePanel := activePanel';
     isOpen := isOpen model; origin := origin model;
     order := order model; entries := entries model;
     recipesForm := recipesForm model; banner := banner model |}.

Definition merge_origin (model : Model) (origin' : option string) : Model :=
  {| active := active model; activePanel := activePanel model;
     isOpen := isOpen model; origin := origin';
     order := order model; entries := entries model;
     recipesForm := recipesForm model; banner := banner model |}.

Definition merge_order_entries (model : Model) (order' : list string)
    (entries' : gmap string Document) : Model :=
  {| active := active model; activePanel := activePanel model;
     isOpen := isOpen model; origin := origin model;
     order := order'; entries := entries';
     recipesForm := recipesForm model; banner := banner model |}.

Definition merge_recipesForm (model : Model) (recipesForm' : FormModel) : Model :=
  {| active := active model; activePanel := activePanel model;
     isOpen := isOpen model; origin := origin model;
     order := order model; entries := entries model;
     recipesForm := recipesForm'; banner := banner model |}.

Definition merge_banner (model : Model) (banner' : BannerModel) : Model :=
  {| active := active model; activePanel := activePanel model;
     isOpen := isOpen model; origin := origin model;
     order := order model; entries := entries model;
     recipesForm := recipesForm model; banner := banner' |}.

(** Modelled from the spec: [Indexed.update] (common/indexed is not in
    src/).  Section 4.2: Activate(id) marks the entity as the selected
    one and overwrites any prior selection. *)
Definition Indexed_update (model : Model) (action : Indexed.Action)
  : Model * Effects Indexed.Action :=
  match action with
  | Indexed.Activate id => (merge_active model (Some id), Effects.none)
  end.

(** Modelled from the spec: [Indexed.add(collection, id, entity)]
    (common/indexed is not in src/).  Section 4.2: the entity is written
    at [id]; [id] is appended to [order] if it is new, and keeps its
    position otherwise. *)
Definition Indexed_add (model : Model) (id : string) (entity : Document) : Model :=
  merge_order_entries model
    (match entries model !! id with
     | Some _ => order model
     | None => order model ++ [id]
     end)
    (<[id := entity]> (entries model)).

(** Modelled from the spec: [Indexed.updateWithID(update, tag,
    collection, id, action)] (common/indexed is not in src/).  Sections
    4.2 and 8: the action goes to the entity at [id] and the effect is
    tagged; on an absent [id] the state is returned as it is, with the
    empty effect. *)
Definition Indexed_updateWithID {A}
    (update : Document -> A -> Document * Effects A) (tag : A -> Action)
    (model : Model) (id : string) (action : A) : Model * Effects Action :=
  match entries model !! id with
  | Some entity =>
      let '(next, fx) := update entity action in
      (merge_order_entries model (order model) (<[id := next]> (entries model)),
       Effects.map tag fx)
  | None => (model, Effects.none)
  end.

(** The cursors without [get] and [set] work on the whole model. *)
Definition updateIndexed :=
  cursor (fun model : Model => model) (fun _ next : Model => next)
    Indexed_update TagIndexed.

Definition updateModal :=
  cursor (fun model : Model => model) (fun _ next : Model => next)
    Modal_update TagModal.

Definition updateBanner :=
  cursor banner merge_banner Banner_update TagBanner.

Definition updateRecipesForm :=
  cursor recipesForm merge_recipesForm RecipesForm_update RecipesFormAction.

Definition updateByID (model : Model) (id : string)
    (action : Recipe.Action RecipeLocal) :=
  Indexed_updateWithID Recipe_update (ByID id) model id action.

(** Helpers *)

Definition templateRecipesDatabase (origin : string) : string :=
  Template_render recipes_origin origin.

(** The guard [if (model.origin)]; the warning of the other branch goes to
    the console and is not part of the result.  Under the guard
    [origin model] is a string: the default is not reached. *)
Definition sync (model : Model) : JS (Model * Effects Action) :=
  if truthy (origin model) then
    let origin := templateRecipesDatabase (default "" (origin model)) in
    ret (model, Effects.map Synced (Database.sync DB origin))
  else
    ret (model, Effects.none).

Definition activatePanel (model : Model) (id : option string)
  : JS (Model * Effects Action) :=
  ret (merge_activePanel model id, Effects.none).

Definition put (model : Model) (recipe : Document) : JS (Model * Effects Action) :=
  let next := Indexed_add model (_id recipe) recipe in
  ret (next, Effects.map Putted (Database.put DB recipe)).

Definition putted (model : Model) (result : Result PutConfirmation Error)
  : JS (Model * Effects Action) :=
  if Result.isOk result then ret (model, Effects.none)
  else ret (model, Effects.none).

Section Handlers.

(** The handlers call [update], which the source defines below them:
    here [update] stands for that function. *)
Variable update : Model -> Action -> JS (Model * Effects Action).

Definition syncedOk (model : Model) := update model RestoreRecipes.

Definition syncedError (model : Model) :=
  let message := localize "Couldn't sync with the cloud. Using local database." in
  update model (AlertDismissable message).

Definition restoredRecipes
  : Model -> Result (list Document) Error -> JS (Model * Effects Action) :=
  Result.updater
    (fun model recipes =>
       ret (merge_order_entries model
              (List.map getPouchID recipes)
              (indexWith recipes getPouchID),
            Effects.none))
    (fun model error =>
       let message := localize "Hmm, couldn't read from your browser's database." in
       update model (AlertRefreshable message)).

Definition startByID (model : Model) (id : string) : JS (Model * Effects Action) :=
  do '(next, fx) <- update model (Activate id);
  do snapshot <- merge_empty (entries model !! id);
  ret (next, Effects.batch [fx; Effects.receive (RequestStart snapshot)]).

Definition configure (model : Model) (origin : string) :=
  let next := merge_origin model (Some origin) in
  batch update next [RestoreRecipes; Sync].

Definition update_body (model : Model) (action : Action)
  : JS (Model * Effects Action) :=
  match action with
  | Indexed source => ret (updateIndexed model source)
  | Banner source => ret (updateBanner model source)
  | RecipesForm source => ret (updateRecipesForm model source)
  | Modal source => ret (updateModal model source)
  | NoOp => ret (model, Effects.none)
  | Put value => put model value
  | Putted result => putted model result
  | RestoreRecipes =>
      ret (model, Effects.map RestoredRecipes (Database.restore DB))
  | RestoredRecipes result => restoredRecipes model result
  | StartByID id => startByID model id
  | ActivatePanel id => activatePanel model id
  | Sync => sync model
  | Synced result =>
      if Result.isOk result then syncedOk model else syncedError model
  | Recipe id source => ret (updateByID model id source)
  | Configure origin => configure model origin
  | RequestStart _ => Unknown.update model action
  end.

End Handlers.

(** [update] calls itself through the handlers, to a depth of two:
    [update_unfold] below shows that [update] is the function its body
    defines. *)
Fixpoint update_fuel (fuel : nat) : Model -> Action -> JS (Model * Effects Action) :=
  match fuel with
  | O => fun model action => Unknown.update model action
  | S fuel' => update_body (update_fuel fuel')
  end.

Definition update : Model -> Action -> JS (Model * Effects Action) :=
  update_fuel 2.

End WithSubModels.

Arguments Model : clear implicits.
Arguments Action : clear implicits.

End Recipes.

(** * The properties in the words of the specification *)

Module Spec.

(** [value.variable] is the string [name]. *)
Definition has_variable (name : string) (dataPoint : object) : bool :=
  bool_decide (dataPoint !! "variable" = Some (JStr name)).

(** The data points of a record set, in the order of its rows. *)
Definition dataPoints (record : RecordSet) : list object :=
  List.map value (rows record).

(** Section 4.5 of the specification: the most recent recipe-start or
    recipe-end marker of a record set, the first row that is either. *)
Definition isRecipeMarker (dataPoint : object) : bool :=
  has_variable "recipe_start" dataPoint || has_variable "recipe_end" dataPoint.

Definition mostRecentMarker (record : RecordSet) : option object :=
  head (List.filter isRecipeMarker (dataPoints record)).

(** The data point an action of the current-recipe tracker carries. *)
Definition marker_of (action : CurrentRecipe.Action) : option object :=
  match action with
  | CurrentRecipe.Start value => value
  | CurrentRecipe.End value => value
  end.

(** Section 4.5 has the tracker fed with that marker: among the actions the
    tracker received there is one that carries it. *)
Definition fed_most_recent_marker (record : RecordSet)
    (received : list CurrentRecipe.Action) : Prop :=
  Exists (fun action => marker_of action = mostRecentMarker record) received.

Definition isEnd (action : Dashboard.Action) : bool :=
  match action with
  | Dashboard.CurrentRecipe (CurrentRecipe.End _) => true
  | _ => false
  end.

(** The last document of a sequence that has the given [_id]: what a
    mapping built by assignment in sequence order holds at that key. *)
Definition lastWithID (recipes : list Document) (key : string) : option Document :=
  last (List.filter (fun recipe => String.eqb (_id recipe) key) recipes).

(** Section 3, the invariant of the indexed collection that the view of
    the manager relies on when it reads [model.entries[id]] for each [id]
    of [model.order]: the IDs of [order] are the keys of [entries]. *)
Definition indexed {BannerModel FormModel}
    (model : Recipes.Model BannerModel FormModel) : Prop :=
  forall id, id ∈ Recipes.order model <-> is_Some (Recipes.entries model !! id).

(** Section 4.6 on Configure: the effect holds a restore-all request and a
    sync request. *)
Definition issues_restore_and_sync {A} (fx : Effects A) : bool :=
  existsb Effects.isRestore (Effects.leaves fx)
  && existsb Effects.isSync (Effects.leaves fx).

End Spec.

(** * Test doubles *)

Module Double.

(** A sub-model that keeps the log of the actions it received and asks for
    nothing. *)
Definition recorder {A} (log : list A) (action : A) : list A * Effects A :=
  (log ++ [action], Effects.none).

Definition dataPoint (variable : string) (timestamp : Z) : object :=
  <["variable" := JStr variable]> (<["timestamp" := JNum timestamp]> ∅).

Definition row (variable : string) (timestamp : Z) : Row :=
  {| value := dataPoint variable timestamp |}.

(** The dashboard over three recorders. *)
Definition dashboard
  : Dashboard.Model (list Poll.Action) (list EnvironmentalDataPoint.Action)
      (list CurrentRecipe.Action) :=
  {| Dashboard.currentRecipe := []; Dashboard.poll := [];
     Dashboard.airTemperature := []; Dashboard.waterTemperature := [] |}.

Definition dashboard_update :=
  Dashboard.update "http://localhost:5984/latest" recorder recorder recorder.

(** A recipe that ended after it started: the end marker is the most
    recent row. *)
Definition ended : RecordSet :=
  {| rows := [ row "recipe_end" 20; row "air_temperature" 15;
               row "recipe_start" 10 ] |}.

(** Readings only. *)
Definition readings : RecordSet :=
  {| rows := [ row "air_temperature" 30; row "recipe_end" 25;
               row "water_temperature" 20 ] |}.

(** The recipes manager over recorders; the modal opens and closes. *)
Abbreviation RecipesModel :=
  (Recipes.Model (list Banner.Action) (list (RecipesForm.Action unit))).
Abbreviation RecipesAction := (Recipes.Action unit unit).

Definition modal (model : RecipesModel) (action : Modal.Action)
  : RecipesModel * Effects Modal.Action :=
  ({| Recipes.active := Recipes.active model;
      Recipes.activePanel := Recipes.activePanel model;
      Recipes.isOpen := match action with Modal.Open => true | Modal.Close => false end;
      Recipes.origin := Recipes.origin model;
      Recipes.order := Recipes.order model;
      Recipes.entries := Recipes.entries model;
      Recipes.recipesForm := Recipes.recipesForm model;
      Recipes.banner := Recipes.banner model |},
   Effects.none).

Definition recipe_update (recipe : Document) (action : Recipe.Action unit)
  : Document * Effects (Recipe.Action unit) :=
  (recipe, Effects.none).

Definition render (template origin_url : string) : string :=
  String.app origin_url template.

Definition recipes_update : RecipesModel -> RecipesAction -> JS (RecipesModel * Effects RecipesAction) :=
  Recipes.update "recipes" "/recipes" render (fun text => text)
    recorder recorder modal recipe_update.

Definition recipes_init : RecipesModel * Effects RecipesAction :=
  Recipes.init ([], Effects.none) ([], Effects.none).

Definition lettuce : Document :=
  {| address := 1%positive; _id := "lettuce";
     fields := <["name" := JStr "Lettuce"]> ∅ |}.

Definition basil : Document :=
  {| address := 2%positive; _id := "basil";
     fields := <["name" := JStr "Basil"]> ∅ |}.

(** A form that, whatever it is sent, asks to receive the submission of
    the lettuce. *)
Definition submitting_form (log : list (RecipesForm.Action unit))
    (action : RecipesForm.Action unit)
  : list (RecipesForm.Action unit) * Effects (RecipesForm.Action unit) :=
  (log ++ [action], Effects.receive (RecipesForm.Submitted lettuce)).

Definition recipes_update_submitting
  : RecipesModel -> RecipesAction -> JS (RecipesModel * Effects RecipesAction) :=
  Recipes.update "recipes" "/recipes" render (fun text => text)
    recorder submitting_form modal recipe_update.

(** A poll that starts by asking for a ping; the other sub-models start
    with nothing to ask. *)
Definition dashboard_init
  : Dashboard.Model (list Poll.Action) (list EnvironmentalDataPoint.Action)
      (list CurrentRecipe.Action) * Effects Dashboard.Action :=
  Dashboard.init "http://localhost:5984/latest" (fun name : string => name)
    ([], Effects.receive Poll.Ping) ([], Effects.none)
    (fun _ _ => ([], Effects.none)).

(** Markers only: no reading of any temperature. *)
Definition markers : RecordSet :=
  {| rows := [ row "recipe_end" 20; row "recipe_start" 10 ] |}.

(** A manager that holds both recipes, [basil] being the active one. *)
Definition stocked : RecipesModel :=
  {| Recipes.active := Some "basil"; Recipes.activePanel := None;
     Recipes.isOpen := true; Recipes.origin := Some "http://origin";
     Recipes.order := ["lettuce"; "basil"];
     Recipes.entries := <["lettuce" := lettuce]> (<["basil" := basil]> ∅);
     Recipes.recipesForm := []; Recipes.banner := [] |}.

End Double.

(** * Facts: the prelude *)

Lemma batch_two {S A} (update : S -> A -> JS (S * Effects A)) model a b heap :
  batch update model [a; b] heap =
    let '((state1, fx1), heap1) := update model a heap in
    let '((state2, fx2), heap2) := update state1 b heap1 in
    ((state2, Effects.batch [fx1; fx2]), heap2).
Proof.
  unfold batch, batch_loop, bind, ret.
  destruct (update model a heap) as [[state1 fx1] heap1].
  destruct (update state1 b heap1) as [[state2 fx2] heap2].
  reflexivity.
Qed.

(** * Facts: environmental-data-points.js *)

Lemma has_variable_matcher name dataPoint :
  Dashboard.matcher "variable" (JStr name) dataPoint = Spec.has_variable name dataPoint.
Proof.
  unfold Dashboard.matcher, Spec.has_variable, strict_eq.
  destruct (dataPoint !! "variable") as [v|] eqn:Hv.
  - destruct (decide (v = JStr name)) as [->|Hne].
    + rewrite !bool_decide_eq_true_2; done.
    + rewrite !bool_decide_eq_false_2; congruence.
  - rewrite bool_decide_eq_false_2; done.
Qed.

Lemma readDataPoints_filter record name :
  Dashboard.readDataPoints record (Dashboard.matcher "variable" (JStr name)) =
    List.filter (Spec.has_variable name) (Spec.dataPoints record).
Proof.
  unfold Dashboard.readDataPoints, Spec.dataPoints, Dashboard.readDataPointFromRow.
  apply List.filter_ext. intros dataPoint. apply has_variable_matcher.
Qed.

Lemma shift_head {A} (array : list A) : fst (Dashboard.shift array) = head array.
Proof. destruct array; reflexivity. Qed.

Lemma readMostRecentDataPoint_head record predicate :
  Dashboard.readMostRecentDataPoint record predicate =
    head (List.filter predicate (Spec.dataPoints record)).
Proof. unfold Dashboard.readMostRecentDataPoint. apply shift_head. Qed.

Lemma readMostRecent_variable record name :
  Dashboard.readMostRecentDataPoint record (Dashboard.matcher "variable" (JStr name)) =
    head (List.filter (Spec.has_variable name) (Spec.dataPoints record)).
Proof.
  rewrite readMostRecentDataPoint_head. f_equal.
  apply List.filter_ext. intros dataPoint. apply has_variable_matcher.
Qed.

(** The first element of a filtered list, by its position in the list. *)
Lemma head_filter_Some {A} (p : A -> bool) (l : list A) (x : A) :
  head (List.filter p l) = Some x <->
  exists before after,
    l = before ++ x :: after /\ p x = true /\ Forall (fun y => p y = false) before.
Proof.
  induction l as [|y l IH]; simpl.
  - split; [discriminate|]. intros (before & after & Heq & _).
    destruct before; discriminate.
  - destruct (p y) eqn:Hy; simpl.
    + split.
      * intros [= ->]. exists [], l. auto.
      * intros (before & after & Heq & Hx & Hbefore).
        destruct before as [|z before]; simpl in Heq.
        -- congruence.
        -- injection Heq as -> ->. inversion Hbefore; congruence.
    + rewrite IH. split.
      * intros (before & after & -> & Hx & Hbefore).
        exists (y :: before), after. auto.
      * intros (before & after & Heq & Hx & Hbefore).
        destruct before as [|z before]; simpl in Heq.
        -- congruence.
        -- injection Heq as -> ->. inversion Hbefore; subst. eauto.
Qed.

Lemma head_filter_None {A} (p : A -> bool) (l : list A) :
  head (List.filter p l) = None <-> Forall (fun y => p y = false) l.
Proof.
  induction l as [|y l IH]; simpl.
  - split; auto.
  - destruct (p y) eqn:Hy; simpl.
    + split; [discriminate|]. inversion 1; congruence.
    + rewrite IH. split; [auto|]. inversion 1; auto.
Qed.

Section DashboardFacts.

Context (ORIGIN_LATEST : string) {PollModel DataPointModel CurrentRecipeModel : Type}.
Context (Poll_update : PollModel -> Poll.Action -> PollModel * Effects Poll.Action).
Context (EnvironmentalDataPoint_update
  : DataPointModel -> EnvironmentalDataPoint.Action
    -> DataPointModel * Effects EnvironmentalDataPoint.Action).
Context (CurrentRecipe_update
  : CurrentRecipeModel -> CurrentRecipe.Action
    -> CurrentRecipeModel * Effects CurrentRecipe.Action).

Local Abbreviation Model := (Dashboard.Model PollModel DataPointModel CurrentRecipeModel).
Local Abbreviation update :=
  (Dashboard.update ORIGIN_LATEST Poll_update EnvironmentalDataPoint_update
     CurrentRecipe_update).
Local Abbreviation update_body :=
  (Dashboard.update_body ORIGIN_LATEST Poll_update EnvironmentalDataPoint_update
     CurrentRecipe_update).

(** [update] is the function the source defines: it satisfies the equation
    of its body on every model and action. *)
Lemma dashboard_update_unfold (model : Model) (action : Dashboard.Action) :
  update model action = update_body update model action.
Proof.
  destruct action as [source|source|source|source|url|[record|error]|record];
    reflexivity.
Qed.

Lemma dashboard_update_restore (model : Model) record heap :
  update model (Dashboard.Restore record) heap =
    batch update model (Dashboard.restoreActions record) heap.
Proof. reflexivity. Qed.

(** An action tagged Poll goes to the poll sub-model through its cursor. *)
Lemma dashboard_update_poll (model : Model) (source : Poll.Action) heap :
  update model (Dashboard.Poll source) heap =
    ((Dashboard.merge_poll model (Poll_update (Dashboard.poll model) source).1,
      Effects.map (Dashboard.PollAction ORIGIN_LATEST)
        (Poll_update (Dashboard.poll model) source).2),
     heap).
Proof.
  rewrite dashboard_update_unfold.
  unfold Dashboard.update_body, ret, Dashboard.updatePoll, cursor.
  destruct (Poll_update (Dashboard.poll model) source) as [poll' pollFx].
  reflexivity.
Qed.

Lemma restoreActions_filter record :
  Dashboard.restoreActions record =
    [ Dashboard.AirTemperature (EnvironmentalDataPoint.AddMany
        (List.filter (Spec.has_variable "air_temperature") (Spec.dataPoints record)));
      Dashboard.WaterTemperature (EnvironmentalDataPoint.AddMany
        (List.filter (Spec.has_variable "water_temperature") (Spec.dataPoints record)));
      Dashboard.CurrentRecipe (CurrentRecipe.Start
        (head (List.filter (Spec.has_variable "recipe_start") (Spec.dataPoints record)))) ].
Proof.
  unfold Dashboard.restoreActions, Dashboard.AddManyAirTemperatures,
    Dashboard.AddManyWaterTemperatures, Dashboard.CurrentRecipeStart, compose.
  unfold Dashboard.isAirTemperature, Dashboard.isWaterTemperature,
    Dashboard.isRecipeStart.
  rewrite !readDataPoints_filter, readMostRecent_variable. reflexivity.
Qed.

(** What [restore] returns for a given array of three actions, one for
    each of the series and one for the tracker. *)
Lemma dashboard_batch_restore (model : Model) air water start heap :
  batch update model
    [ Dashboard.AirTemperature air; Dashboard.WaterTemperature water;
      Dashboard.CurrentRecipe start ] heap =
    let '(airTemperature', airFx) :=
      EnvironmentalDataPoint_update (Dashboard.airTemperature model) air in
    let '(waterTemperature', waterFx) :=
      EnvironmentalDataPoint_update (Dashboard.waterTemperature model) water in
    let '(currentRecipe', recipeFx) :=
      CurrentRecipe_update (Dashboard.currentRecipe model) start in
    (({| Dashboard.currentRecipe := currentRecipe';
         Dashboard.poll := Dashboard.poll model;
         Dashboard.airTemperature := airTemperature';
         Dashboard.waterTemperature := waterTemperature' |},
      Effects.batch
        [ Effects.map Dashboard.AirTemperature airFx;
          Effects.map Dashboard.WaterTemperature waterFx;
          Effects.map Dashboard.CurrentRecipe recipeFx ]),
     heap).
Proof.
  unfold batch, batch_loop, bind, ret. simpl.
  unfold Dashboard.updateAirTemperature, Dashboard.updateWaterTemperature,
    Dashboard.updateCurrentRecipe, cursor, ret. simpl.
  destruct (EnvironmentalDataPoint_update (Dashboard.airTemperature model) air)
    as [airTemperature' airFx].
  simpl.
  destruct (EnvironmentalDataPoint_update (Dashboard.waterTemperature model) water)
    as [waterTemperature' waterFx].
  simpl.
  destruct (CurrentRecipe_update (Dashboard.currentRecipe model) start)
    as [currentRecipe' recipeFx].
  reflexivity.
Qed.

(** C7: for every dashboard model and every error, Got with an Error
    result sends a Miss to the poll sub-model and to nothing else: the
    returned state is the model with its poll field replaced by what the
    poll update returns on Miss, the effect is the poll's effect tagged, and
    the airTemperature, waterTemperature and currentRecipe fields are those
    of the input model. *)
Theorem gotError_misses_poll_only (model : Model) (error : Error) (heap : Heap) :
  let missed := Poll_update (Dashboard.poll model) Poll.Miss in
  let next := (update model (Dashboard.Got (Result.Error error)) heap).1.1 in
  update model (Dashboard.Got (Result.Error error)) heap =
    ((Dashboard.merge_poll model missed.1,
      Effects.map (Dashboard.PollAction ORIGIN_LATEST) missed.2),
     heap)
  /\ Dashboard.poll next = missed.1
  /\ Dashboard.airTemperature next = Dashboard.airTemperature model
  /\ Dashboard.waterTemperature next = Dashboard.waterTemperature model
  /\ Dashboard.currentRecipe next = Dashboard.currentRecipe model.
Proof.
  intros missed next. subst next.
  assert (Hmiss : update model (Dashboard.Got (Result.Error error)) heap =
    update model (Dashboard.Poll Poll.Miss) heap)
    by (rewrite dashboard_update_unfold; reflexivity).
  rewrite Hmiss, dashboard_update_poll. fold missed.
  repeat split.
Qed.

(** C8: for every record set and every predicate, readMostRecentDataPoint
    returns the first element of the sequence made of the value of each row
    and filtered by the predicate, undefined ([None]) when that sequence is
    empty.  The result is fixed by the positions of the rows alone: it is
    the data point that satisfies the predicate and has no data point
    satisfying it before it. *)
Theorem readMostRecentDataPoint_is_first (record : RecordSet) (predicate : object -> bool) :
  Dashboard.readMostRecentDataPoint record predicate =
    head (List.filter predicate (List.map value (rows record)))
  /\ (forall dataPoint,
        Dashboard.readMostRecentDataPoint record predicate = Some dataPoint <->
        exists before after,
          List.map value (rows record) = before ++ dataPoint :: after
          /\ predicate dataPoint = true
          /\ Forall (fun earlier => predicate earlier = false) before)
  /\ (Dashboard.readMostRecentDataPoint record predicate = None <->
      Forall (fun dataPoint => predicate dataPoint = false) (List.map value (rows record))).
Proof.
  rewrite readMostRecentDataPoint_head. unfold Spec.dataPoints.
  split; [reflexivity|]. split.
  - intros dataPoint. apply head_filter_Some.
  - apply head_filter_None.
Qed.

(** What Got with an Ok result returns: the three sub-models of the data
    updated by the actions of [restore], the poll updated by Pong. *)
Lemma dashboard_update_gotOk (model : Model) (record : RecordSet) (heap : Heap) :
  let aired :=
    EnvironmentalDataPoint_update (Dashboard.airTemperature model)
      (EnvironmentalDataPoint.AddMany
         (List.filter (Spec.has_variable "air_temperature") (Spec.dataPoints record))) in
  let watered :=
    EnvironmentalDataPoint_update (Dashboard.waterTemperature model)
      (EnvironmentalDataPoint.AddMany
         (List.filter (Spec.has_variable "water_temperature") (Spec.dataPoints record))) in
  let started :=
    CurrentRecipe_update (Dashboard.currentRecipe model)
      (CurrentRecipe.Start
         (head (List.filter (Spec.has_variable "recipe_start") (Spec.dataPoints record)))) in
  let ponged := Poll_update (Dashboard.poll model) Poll.Pong in
  update model (Dashboard.Got (Result.Ok record)) heap =
    (({| Dashboard.currentRecipe := started.1;
         Dashboard.poll := ponged.1;
         Dashboard.airTemperature := aired.1;
         Dashboard.waterTemperature := watered.1 |},
      Effects.batch
        [ Effects.batch
            [ Effects.map Dashboard.AirTemperature aired.2;
              Effects.map Dashboard.WaterTemperature watered.2;
              Effects.map Dashboard.CurrentRecipe started.2 ];
          Effects.map (Dashboard.PollAction ORIGIN_LATEST) ponged.2 ]),
     heap).
Proof.
  intros aired watered started ponged.
  rewrite dashboard_update_unfold.
  change (update_body update model (Dashboard.Got (Result.Ok record)) heap)
    with (batch update model [Dashboard.Restore record; Dashboard.Poll Poll.Pong] heap).
  rewrite batch_two, dashboard_update_restore, restoreActions_filter.
  rewrite dashboard_batch_restore. fold aired watered started.
  destruct aired as [airTemperature' airFx].
  destruct watered as [waterTemperature' waterFx].
  destruct started as [currentRecipe' recipeFx].
  rewrite dashboard_update_poll. reflexivity.
Qed.

(** C1, as amended: for every dashboard model and every record set, Got
    with an Ok result returns what batching a Restore of the record set and
    a Pong to the poll returns.  The Restore sends the data points whose
    variable is air_temperature to the air-temperature series, those whose
    variable is water_temperature to the water-temperature series, and the
    first data point whose variable is recipe_start (undefined when there is
    none) to the current-recipe tracker as a Start. *)
Theorem gotOk_restores_then_pongs (model : Model) (record : RecordSet) (heap : Heap) :
  let air := List.filter (Spec.has_variable "air_temperature") (Spec.dataPoints record) in
  let water := List.filter (Spec.has_variable "water_temperature") (Spec.dataPoints record) in
  let start := head (List.filter (Spec.has_variable "recipe_start") (Spec.dataPoints record)) in
  let aired :=
    EnvironmentalDataPoint_update (Dashboard.airTemperature model)
      (EnvironmentalDataPoint.AddMany air) in
  let watered :=
    EnvironmentalDataPoint_update (Dashboard.waterTemperature model)
      (EnvironmentalDataPoint.AddMany water) in
  let started :=
    CurrentRecipe_update (Dashboard.currentRecipe model) (CurrentRecipe.Start start) in
  let ponged := Poll_update (Dashboard.poll model) Poll.Pong in
  update model (Dashboard.Got (Result.Ok record)) heap =
    batch update model [Dashboard.Restore record; Dashboard.Poll Poll.Pong] heap
  /\ update model (Dashboard.Restore record) heap =
       batch update model
         [ Dashboard.AirTemperature (EnvironmentalDataPoint.AddMany air);
           Dashboard.WaterTemperature (EnvironmentalDataPoint.AddMany water);
           Dashboard.CurrentRecipe (CurrentRecipe.Start start) ] heap
  /\ update model (Dashboard.Got (Result.Ok record)) heap =
       (({| Dashboard.currentRecipe := started.1;
            Dashboard.poll := ponged.1;
            Dashboard.airTemperature := aired.1;
            Dashboard.waterTemperature := watered.1 |},
         Effects.batch
           [ Effects.batch
               [ Effects.map Dashboard.AirTemperature aired.2;
                 Effects.map Dashboard.WaterTemperature watered.2;
                 Effects.map Dashboard.CurrentRecipe started.2 ];
             Effects.map (Dashboard.PollAction ORIGIN_LATEST) ponged.2 ]),
        heap).
Proof.
  intros air water start aired watered started ponged.
  split; [rewrite dashboard_update_unfold; reflexivity|].
  split; [rewrite dashboard_update_restore, restoreActions_filter; reflexivity|].
  apply dashboard_update_gotOk.
Qed.

(** C10: for every record set with no row whose variable is recipe_start,
    restore still sends a Start to the current-recipe tracker, with an
    undefined payload ([None], the first element of an empty sequence): the
    tracker's state is what its update returns on that Start.  And for
    every record set, whatever its rows, no action of restore is a
    recipe end: the tracker is sent one action, a Start, also through Got. *)
Theorem restore_starts_without_marker (model : Model) (record : RecordSet) (heap : Heap) :
  Forall (fun dataPoint => Spec.has_variable "recipe_start" dataPoint = false)
    (Spec.dataPoints record) ->
  Dashboard.readMostRecentDataPoint record Dashboard.isRecipeStart = None
  /\ nth_error (Dashboard.restoreActions record) 2 =
       Some (Dashboard.CurrentRecipe (CurrentRecipe.Start None))
  /\ update model (Dashboard.Restore record) heap =
       batch update model (Dashboard.restoreActions record) heap
  /\ Dashboard.currentRecipe (update model (Dashboard.Restore record) heap).1.1 =
       (CurrentRecipe_update (Dashboard.currentRecipe model) (CurrentRecipe.Start None)).1
  /\ (forall any : RecordSet,
        existsb Spec.isEnd (Dashboard.restoreActions any) = false)
  /\ (forall any : RecordSet,
        Dashboard.currentRecipe (update model (Dashboard.Restore any) heap).1.1 =
          (CurrentRecipe_update (Dashboard.currentRecipe model)
             (CurrentRecipe.Start
                (Dashboard.readMostRecentDataPoint any Dashboard.isRecipeStart))).1)
  /\ (forall any : RecordSet,
        Dashboard.currentRecipe
          (update model (Dashboard.Got (Result.Ok any)) heap).1.1 =
          (CurrentRecipe_update (Dashboard.currentRecipe model)
             (CurrentRecipe.Start
                (Dashboard.readMostRecentDataPoint any Dashboard.isRecipeStart))).1).
Proof.
  intros Hnone.
  assert (Hread : Dashboard.readMostRecentDataPoint record Dashboard.isRecipeStart = None).
  { unfold Dashboard.isRecipeStart. rewrite readMostRecent_variable.
    apply head_filter_None. exact Hnone. }
  assert (Htracker : forall any : RecordSet,
    Dashboard.currentRecipe (update model (Dashboard.Restore any) heap).1.1 =
      (CurrentRecipe_update (Dashboard.currentRecipe model)
         (CurrentRecipe.Start
            (Dashboard.readMostRecentDataPoint any Dashboard.isRecipeStart))).1).
  { intros any. rewrite dashboard_update_restore.
    unfold Dashboard.restoreActions, Dashboard.AddManyAirTemperatures,
      Dashboard.AddManyWaterTemperatures, Dashboard.CurrentRecipeStart, compose.
    unfold Dashboard.AirTemperatureAction, Dashboard.WaterTemperatureAction,
      Dashboard.CurrentRecipeAction.
    rewrite dashboard_batch_restore.
    destruct (EnvironmentalDataPoint_update (Dashboard.airTemperature model) _).
    destruct (EnvironmentalDataPoint_update (Dashboard.waterTemperature model) _).
    destruct (CurrentRecipe_update (Dashboard.currentRecipe model) _).
    reflexivity. }
  split; [exact Hread|]. split.
  { unfold Dashboard.restoreActions. simpl. rewrite Hread. reflexivity. }
  split; [apply dashboard_update_restore|]. split.
  { rewrite Htracker, Hread. reflexivity. }
  split; [intros any; reflexivity|]. split; [exact Htracker|].
  intros any.
  rewrite dashboard_update_gotOk.
  unfold Dashboard.isRecipeStart. rewrite readMostRecent_variable. reflexivity.
Qed.

End DashboardFacts.

(** * Facts: recipes.js *)

Lemma truthy_nonempty (text : string) : text <> "" -> Recipes.truthy (Some text) = true.
Proof.
  intros Hne. unfold Recipes.truthy.
  destruct (String.eqb text "") eqn:Heq; [|reflexivity].
  apply String.eqb_eq in Heq. contradiction.
Qed.

Lemma indexWith_fold_lookup (recipes : list Document) (index : gmap string Document) key :
  fold_left (fun index entity => <[_id entity := entity]> index) recipes index !! key =
    match Spec.lastWithID recipes key with
    | Some recipe => Some recipe
    | None => index !! key
    end.
Proof.
  unfold Spec.lastWithID. revert index.
  induction recipes as [|recipe recipes IH]; intros index; simpl; [reflexivity|].
  rewrite IH.
  destruct (String.eqb (_id recipe) key) eqn:Heq.
  - apply String.eqb_eq in Heq. rewrite last_cons.
    destruct (last _); [reflexivity|].
    rewrite Heq. apply lookup_insert_eq.
  - apply String.eqb_neq in Heq.
    destruct (last _); [reflexivity|].
    apply lookup_insert_ne. exact Heq.
Qed.

Lemma indexWith_lookup (recipes : list Document) key :
  Recipes.indexWith recipes Recipes.getPouchID !! key = Spec.lastWithID recipes key.
Proof.
  unfold Recipes.indexWith, Recipes.getPouchID.
  rewrite indexWith_fold_lookup, lookup_empty.
  destruct (Spec.lastWithID recipes key); reflexivity.
Qed.

Lemma indexWith_fold_dom (recipes : list Document) (index : gmap string Document) :
  dom (fold_left (fun index entity => <[_id entity := entity]> index) recipes index) =
    list_to_set (List.map _id recipes) ∪ dom index.
Proof.
  revert index. induction recipes as [|recipe recipes IH]; intros index; simpl.
  - rewrite (left_id_L ∅ (∪)). reflexivity.
  - rewrite IH, dom_insert_L.
    rewrite (comm_L (∪) {[_id recipe]} (list_to_set (List.map _id recipes))).
    rewrite (assoc_L (∪)). reflexivity.
Qed.

Lemma indexWith_dom (recipes : list Document) :
  dom (Recipes.indexWith recipes Recipes.getPouchID) =
    list_to_set (List.map _id recipes).
Proof.
  unfold Recipes.indexWith, Recipes.getPouchID.
  rewrite indexWith_fold_dom, dom_empty_L, (right_id_L ∅ (∪)). reflexivity.
Qed.

(** When no two records share an [_id], each record is the one its [_id]
    leads to. *)
Lemma lastWithID_NoDup (recipes : list Document) (recipe : Document) :
  NoDup (List.map _id recipes) ->
  recipe ∈ recipes ->
  Spec.lastWithID recipes (_id recipe) = Some recipe.
Proof.
  unfold Spec.lastWithID.
  induction recipes as [|first recipes IH]; simpl; intros Hnodup Hin.
  - inversion Hin.
  - apply NoDup_cons in Hnodup as [Hfirst Hnodup].
    apply elem_of_cons in Hin as [->|Hin].
    + rewrite String.eqb_refl, last_cons.
      assert (Hnone : List.filter (fun other => String.eqb (_id other) (_id first))
                        recipes = []).
      { clear -Hfirst. induction recipes as [|other recipes IH]; simpl; [reflexivity|].
        simpl in Hfirst. apply not_elem_of_cons in Hfirst as [Hne Hfirst].
        destruct (String.eqb (_id other) (_id first)) eqn:Heq.
        - apply String.eqb_eq in Heq. congruence.
        - apply IH. exact Hfirst. }
      rewrite Hnone. reflexivity.
    + specialize (IH Hnodup Hin).
      destruct (String.eqb (_id first) (_id recipe)); [rewrite last_cons|];
        rewrite IH; reflexivity.
Qed.

Section RecipesFacts.

Context (recipes_local recipes_origin : string).
Context (Template_render : string -> string -> string) (localize : string -> string).
Context {BannerModel FormModel FormLocal RecipeLocal : Type}.
Context (Banner_update
  : BannerModel -> Banner.Action -> BannerModel * Effects Banner.Action).
Context (RecipesForm_update
  : FormModel -> RecipesForm.Action FormLocal
    -> FormModel * Effects (RecipesForm.Action FormLocal)).
Context (Modal_update
  : Recipes.Model BannerModel FormModel -> Modal.Action
    -> Recipes.Model BannerModel FormModel * Effects Modal.Action).
Context (Recipe_update
  : Document -> Recipe.Action RecipeLocal
    -> Document * Effects (Recipe.Action RecipeLocal)).

Local Abbreviation Model := (Recipes.Model BannerModel FormModel).
Local Abbreviation Action := (Recipes.Action FormLocal RecipeLocal).
Local Abbreviation update :=
  (Recipes.update recipes_local recipes_origin Template_render localize
     Banner_update RecipesForm_update Modal_update Recipe_update).
Local Abbreviation update_body :=
  (Recipes.update_body recipes_local recipes_origin Template_render localize
     Banner_update RecipesForm_update Modal_update Recipe_update).
Local Abbreviation DB := (Recipes.DB recipes_local).

(** [update] is the function the source defines: it satisfies the equation
    of its body on every model and action. *)
Lemma recipes_update_unfold (model : Model) (action : Action) :
  update model action = update_body update model action.
Proof.
  destruct action as
    [source|source|source|source| |recipe|result| |[recipes|error]|id|id|
     |[[]|error]|id source|origin|snapshot];
    reflexivity.
Qed.

Lemma recipes_update_sync (model : Model) heap :
  update model Recipes.Sync heap =
    Recipes.sync recipes_local recipes_origin Template_render model heap.
Proof. reflexivity. Qed.

(** An action tagged Banner goes to the banner sub-model through its
    cursor. *)
Lemma recipes_update_banner (model : Model) (source : Banner.Action) heap :
  update model (Recipes.Banner source) heap =
    ((Recipes.merge_banner model (Banner_update (Recipes.banner model) source).1,
      Effects.map Recipes.Banner (Banner_update (Recipes.banner model) source).2),
     heap).
Proof.
  rewrite recipes_update_unfold.
  unfold Recipes.update_body, ret, Recipes.updateBanner, cursor.
  destruct (Banner_update (Recipes.banner model) source) as [banner' bannerFx].
  reflexivity.
Qed.

Lemma sync_with_origin (model : Model) (text : string) heap :
  Recipes.origin model = Some text ->
  text <> "" ->
  Recipes.sync recipes_local recipes_origin Template_render model heap =
    ((model,
      Effects.task (DbSync DB (Template_render recipes_origin text))
        (Recipes.Synced : _ -> Action)),
     heap).
Proof.
  intros Horigin Hne. unfold Recipes.sync.
  rewrite Horigin, (truthy_nonempty text Hne). reflexivity.
Qed.

Lemma sync_without_origin (model : Model) heap :
  Recipes.truthy (Recipes.origin model) = false ->
  Recipes.sync recipes_local recipes_origin Template_render model heap =
    ((model, Effects.none : Effects Action), heap).
Proof. intros Horigin. unfold Recipes.sync. rewrite Horigin. reflexivity. Qed.

(** C2: for every manager model, RestoredRecipes with an Ok result that
    carries a sequence of records replaces order with the _id of each
    record in sequence order and entries with the mapping from those _id
    values to their records (a key holds the last record that has it, the
    keys are the _id values of the sequence and no other), and issues no
    effect; RestoredRecipes with an Error result leaves order and entries as
    they were and sends a refreshable alert to the banner. *)
Theorem restoredRecipes_replaces_or_alerts
    (model : Model) (recipes : list Document) (error : Error) (heap : Heap) :
  let next :=
    Recipes.merge_order_entries model (List.map _id recipes)
      (Recipes.indexWith recipes Recipes.getPouchID) in
  let alerted :=
    Banner_update (Recipes.banner model)
      (Banner.AlertRefreshable
         (localize "Hmm, couldn't read from your browser's database.")) in
  let failed := Recipes.merge_banner model alerted.1 in
  update model (Recipes.RestoredRecipes (Result.Ok recipes)) heap =
    ((next, Effects.none), heap)
  /\ Recipes.order next = List.map _id recipes
  /\ (forall key, Recipes.entries next !! key = Spec.lastWithID recipes key)
  /\ dom (Recipes.entries next) = list_to_set (List.map _id recipes)
  /\ update model (Recipes.RestoredRecipes (Result.Error error)) heap =
       ((failed, Effects.map Recipes.Banner alerted.2), heap)
  /\ Recipes.order failed = Recipes.order model
  /\ Recipes.entries failed = Recipes.entries model.
Proof.
  intros next alerted failed.
  split; [rewrite recipes_update_unfold; reflexivity|].
  split; [reflexivity|].
  split; [apply indexWith_lookup|].
  split; [apply indexWith_dom|].
  split; [|split; reflexivity].
  assert (Herror : update model (Recipes.RestoredRecipes (Result.Error error)) heap =
    update model
      (Recipes.Banner (Banner.AlertRefreshable
         (localize "Hmm, couldn't read from your browser's database."))) heap)
    by (rewrite recipes_update_unfold; reflexivity).
  rewrite Herror. apply recipes_update_banner.
Qed.

(** C3: for every manager model and every recipe document, Put(recipe)
    returns, in the step that queues the write and so before any
    confirmation, a state where entries holds the recipe at recipe._id,
    with recipe._id appended to order if entries had nothing there (order
    kept otherwise); the effect is one database write of that recipe, whose
    answer comes back as Putted; and no answer changes that state. *)
Theorem put_indexes_then_writes (model : Model) (recipe : Document) (heap : Heap) :
  let next := Recipes.Indexed_add model (_id recipe) recipe in
  let write : Effects Action := Effects.task (DbPut DB recipe) Recipes.Putted in
  update model (Recipes.Put recipe) heap = ((next, write), heap)
  /\ Recipes.entries next !! _id recipe = Some recipe
  /\ Recipes.entries next = <[_id recipe := recipe]> (Recipes.entries model)
  /\ Recipes.order next =
       match Recipes.entries model !! _id recipe with
       | Some _ => Recipes.order model
       | None => Recipes.order model ++ [_id recipe]
       end
  /\ Effects.leaves write = [write]
  /\ length (List.filter Effects.isPut (Effects.leaves write)) = 1
  /\ (forall result,
        update next (Recipes.Putted result) heap = ((next, Effects.none), heap)).
Proof.
  intros next write.
  split; [rewrite recipes_update_unfold; reflexivity|].
  split; [apply lookup_insert_eq|].
  repeat split.
  intros [confirmation|error]; reflexivity.
Qed.

(** C4: for every manager model and every Putted result, Ok or Error, the
    update returns the model as it is and no effect.  So a failed write is
    swallowed: the state that a Put returned, with the recipe it inserted,
    is the state after the failure, the banner field included, and nothing
    is queued. *)
Theorem putted_is_swallowed
    (model : Model) (result : Result PutConfirmation Error) (heap : Heap) :
  update model (Recipes.Putted result) heap = ((model, Effects.none), heap)
  /\ (forall (recipe : Document) (error : Error),
        let inserted := (update model (Recipes.Put recipe) heap).1.1 in
        update inserted (Recipes.Putted (Result.Error error)) heap =
          ((inserted, Effects.none), heap)).
Proof.
  split.
  - destruct result as [confirmation|error]; reflexivity.
  - intros recipe error. reflexivity.
Qed.

(** C5, as amended: for every manager model and every origin that is not
    the empty string, Configure(origin) returns a state whose origin field
    is the given origin and, in one batch, a restore-all request and a sync
    request to the database of that origin. *)
Theorem configure_restores_and_syncs (model : Model) (origin : string) (heap : Heap) :
  origin <> "" ->
  let next := Recipes.merge_origin model (Some origin) in
  let restore : Effects Action := Effects.task (DbRestore DB) Recipes.RestoredRecipes in
  let sync : Effects Action :=
    Effects.task (DbSync DB (Template_render recipes_origin origin)) Recipes.Synced in
  update model (Recipes.Configure origin) heap =
    ((next, Effects.batch [restore; sync]), heap)
  /\ Recipes.origin next = Some origin
  /\ List.filter Effects.isRestore (Effects.leaves (Effects.batch [restore; sync])) =
       [restore]
  /\ List.filter Effects.isSync (Effects.leaves (Effects.batch [restore; sync])) =
       [sync]
  /\ Spec.issues_restore_and_sync (Effects.batch [restore; sync]) = true.
Proof.
  intros Hne next restore sync.
  split; [|repeat split].
  rewrite recipes_update_unfold. simpl.
  unfold Recipes.configure. rewrite batch_two.
  rewrite !recipes_update_unfold. simpl.
  rewrite recipes_update_sync.
  rewrite (sync_with_origin (Recipes.merge_origin model (Some origin)) origin heap
    eq_refl Hne).
  reflexivity.
Qed.

(** With the empty string as origin the guard of [sync] is false: the
    origin is set and the restore-all request is issued alone. *)
Lemma configure_empty_origin (model : Model) (heap : Heap) :
  update model (Recipes.Configure "") heap =
    ((Recipes.merge_origin model (Some ""),
      Effects.batch
        [ Effects.task (DbRestore DB) Recipes.RestoredRecipes; Effects.none ]),
     heap).
Proof.
  rewrite recipes_update_unfold. simpl.
  unfold Recipes.configure. rewrite batch_two.
  rewrite !recipes_update_unfold. reflexivity.
Qed.

(** C6: for every manager model, every id at which entries holds an entry
    and every heap where that entry is allocated (as every object that
    exists is), StartByID(id) makes id
    the active one, whatever was active before (active holds one ID), and
    queues a RequestStart whose payload has the _id and the fields of the
    entry and is a new object: its address is the one the heap gives next,
    which is not the address of the stored entry nor of any allocated
    document, and entries still holds the entry. *)
Theorem startByID_activates_and_snapshots
    (model : Model) (id : string) (entry : Document) (heap : Heap) :
  Recipes.entries model !! id = Some entry ->
  allocated heap entry ->
  let snapshot := {| address := heap; _id := _id entry; fields := fields entry |} in
  let next := Recipes.merge_active model (Some id) in
  update model (Recipes.StartByID id) heap =
    ((next,
      Effects.batch
        [ Effects.none; Effects.receive (Recipes.RequestStart (Some snapshot)) ]),
     Pos.succ heap)
  /\ Recipes.active next = Some id
  /\ _id snapshot = _id entry
  /\ fields snapshot = fields entry
  /\ address snapshot <> address entry
  /\ snapshot <> entry
  /\ (forall doc, allocated heap doc -> address snapshot <> address doc)
  /\ allocated (Pos.succ heap) snapshot
  /\ Recipes.entries next !! id = Some entry.
Proof.
  intros Hentry Hallocated snapshot next.
  assert (Hfresh : forall doc, allocated heap doc -> address snapshot <> address doc).
  { unfold allocated. intros doc Hdoc. simpl. lia. }
  split.
  { rewrite recipes_update_unfold. simpl.
    unfold Recipes.startByID, bind. simpl.
    unfold merge_empty. rewrite Hentry. reflexivity. }
  split; [reflexivity|]. split; [reflexivity|]. split; [reflexivity|].
  split; [apply Hfresh; exact Hallocated|].
  split.
  { intros Heq. apply (Hfresh entry Hallocated). rewrite Heq. reflexivity. }
  split; [exact Hfresh|].
  split; [unfold allocated; simpl; lia|exact Hentry].
Qed.

(** C9: the action mapper of the form rewrites every Submitted action into
    Put(action.recipe), which is not an action tagged RecipesForm, and Back
    into ActivatePanel(null); an action of another type is tagged
    RecipesForm.  So a Submitted that the form asks
    to receive reaches the manager as a Put, and the manager takes it
    through put: the recipe is inserted and the write is queued. *)
Theorem recipesFormAction_rewrites
    (model : Model) (recipe : Document) (other : FormLocal) (heap : Heap) :
  Recipes.RecipesFormAction (RecipesForm.Submitted recipe) =
    (Recipes.Put recipe : Action)
  /\ (forall source : RecipesForm.Action FormLocal,
        Recipes.RecipesFormAction (RecipesForm.Submitted recipe) <>
          (Recipes.RecipesForm source : Action))
  /\ Recipes.RecipesFormAction RecipesForm.Back = (Recipes.ActivatePanel None : Action)
  /\ Recipes.RecipesFormAction (RecipesForm.Other other) =
       (Recipes.RecipesForm (RecipesForm.Other other) : Action)
  /\ Effects.map Recipes.RecipesFormAction
       (Effects.receive (RecipesForm.Submitted recipe)) =
       Effects.receive (Recipes.Put recipe : Action)
  /\ update model (Recipes.RecipesFormAction (RecipesForm.Submitted recipe)) heap =
       Recipes.put recipes_local model recipe heap
  /\ update model (Recipes.RecipesFormAction (RecipesForm.Submitted recipe)) heap =
       ((Recipes.Indexed_add model (_id recipe) recipe,
         Effects.task (DbPut DB recipe) Recipes.Putted), heap)
  /\ update model (Recipes.RecipesFormAction RecipesForm.Back) heap =
       ((Recipes.merge_activePanel model None, Effects.none), heap).
Proof.
  split; [reflexivity|]. split; [intros source; discriminate|].
  repeat split.
Qed.

End RecipesFacts.

(** * The scenarios of section 8, on the test doubles *)

(** Configure on the initial state, then the answer of the restore. *)
Example scenario_configure_then_restored :
  let configured :=
    Double.recipes_update Double.recipes_init.1
      (Recipes.Configure "http://origin") 3%positive in
  let restored :=
    Double.recipes_update configured.1.1
      (Recipes.RestoredRecipes (Result.Ok [Double.lettuce; Double.basil]))
      configured.2 in
  Recipes.origin configured.1.1 = Some "http://origin"
  /\ length (Effects.leaves configured.1.2) = 2
  /\ Recipes.order restored.1.1 = ["lettuce"; "basil"]
  /\ Recipes.entries restored.1.1 =
       <["lettuce" := Double.lettuce]> (<["basil" := Double.basil]> ∅)
  /\ Recipes.origin restored.1.1 = Some "http://origin".
Proof. vm_compute. repeat split. Qed.

(** A record set that is not sorted by time: the first recipe start is
    returned, not the one with the latest time. *)
Example readMostRecentDataPoint_unsorted :
  Dashboard.readMostRecentDataPoint
    {| rows := [ Double.row "recipe_start" 10; Double.row "recipe_start" 20 ] |}
    Dashboard.isRecipeStart =
    Some (Double.dataPoint "recipe_start" 10).
Proof. reflexivity. Qed.

(** A failed read of the store: the recipes stay, the banner is alerted. *)
Example scenario_restore_failed :
  let failed :=
    Double.recipes_update Double.stocked
      (Recipes.RestoredRecipes (Result.Error {| message := "quota" |})) 3%positive in
  Recipes.order failed.1.1 = ["lettuce"; "basil"]
  /\ Recipes.entries failed.1.1 = Recipes.entries Double.stocked
  /\ Recipes.banner failed.1.1 =
       [Banner.AlertRefreshable "Hmm, couldn't read from your browser's database."].
Proof. repeat split. Qed.

(** A failed fetch: the poll receives a Miss, the series and the tracker
    receive nothing. *)
Example scenario_got_error :
  let missed :=
    Double.dashboard_update Double.dashboard
      (Dashboard.Got (Result.Error {| message := "timeout" |})) 1%positive in
  Dashboard.poll missed.1.1 = [Poll.Miss]
  /\ Dashboard.airTemperature missed.1.1 = []
  /\ Dashboard.waterTemperature missed.1.1 = []
  /\ Dashboard.currentRecipe missed.1.1 = [].
Proof. repeat split. Qed.

(** A put of a new recipe: it is in the index at once, after the recipes
    that were there, and one write is queued. *)
Example scenario_put :
  let tomato :=
    {| address := 3%positive; _id := "tomato"; fields := <["name" := JStr "Tomato"]> ∅ |} in
  let put := Double.recipes_update Double.stocked (Recipes.Put tomato) 4%positive in
  Recipes.entries put.1.1 !! "tomato" = Some tomato
  /\ Recipes.order put.1.1 = ["lettuce"; "basil"; "tomato"]
  /\ put.1.2 = Effects.task (DbPut (NewPouchDB "recipes") tomato) Recipes.Putted.
Proof. vm_compute. repeat split. Qed.

(** * The claims on the test doubles *)

(** C1, counterexample: in [Double.ended] the most recent marker is the
    recipe end of time 20; after Got with that record set the tracker has
    received one action, the Start of the recipe start of time 10, and no
    action that carries the most recent marker. *)
Lemma gotOk_marker_counterexample :
  let next :=
    (Double.dashboard_update Double.dashboard
       (Dashboard.Got (Result.Ok Double.ended)) 1%positive).1.1 in
  Spec.mostRecentMarker Double.ended = Some (Double.dataPoint "recipe_end" 20)
  /\ Dashboard.currentRecipe next =
       [CurrentRecipe.Start (Some (Double.dataPoint "recipe_start" 10))]
  /\ ~ Spec.fed_most_recent_marker Double.ended (Dashboard.currentRecipe next).
Proof.
  split; [reflexivity|]. split; [reflexivity|].
  unfold Spec.fed_most_recent_marker.
  change (Dashboard.currentRecipe _)
    with [CurrentRecipe.Start (Some (Double.dataPoint "recipe_start" 10))].
  rewrite Exists_cons, Exists_nil. intros [Heq|[]].
  apply (f_equal (fun marker => marker ≫= (.!! "variable"))) in Heq.
  vm_compute in Heq. discriminate Heq.
Qed.

(** C5, counterexample: Configure with the empty string on the initial
    model sets origin to it and issues the restore-all request alone: the
    guard of sync reads the empty origin as not set. *)
Lemma configure_empty_origin_counterexample :
  let result :=
    Double.recipes_update Double.recipes_init.1 (Recipes.Configure "") 1%positive in
  Recipes.origin result.1.1 = Some ""
  /\ result.1.2 =
       Effects.batch
         [ Effects.task (DbRestore (NewPouchDB "recipes")) Recipes.RestoredRecipes;
           Effects.none ]
  /\ List.filter Effects.isSync (Effects.leaves result.1.2) = []
  /\ Spec.issues_restore_and_sync result.1.2 = false.
Proof. repeat split. Qed.

(** C5, witness: Configure("http://origin") on the initial model. *)
Lemma configure_restores_and_syncs_witness :
  "http://origin" <> ""
  /\ Double.recipes_update Double.recipes_init.1
       (Recipes.Configure "http://origin") 1%positive =
       ((Recipes.merge_origin Double.recipes_init.1 (Some "http://origin"),
         Effects.batch
           [ Effects.task (DbRestore (NewPouchDB "recipes")) Recipes.RestoredRecipes;
             Effects.task (DbSync (NewPouchDB "recipes") "http://origin/recipes")
               Recipes.Synced ]),
        1%positive).
Proof.
  assert (Hne : "http://origin" <> "") by (vm_compute; discriminate).
  split; [exact Hne|].
  exact (proj1 (configure_restores_and_syncs "recipes" "/recipes" Double.render
    (fun text => text) Double.recorder Double.recorder Double.modal
    Double.recipe_update Double.recipes_init.1 "http://origin" 1%positive Hne)).
Defined.

(** C6, witness: starting the lettuce while the basil is active, on a heap
    whose next free address is 3. *)
Lemma startByID_activates_and_snapshots_witness :
  Recipes.entries Double.stocked !! "lettuce" = Some Double.lettuce
  /\ allocated 3%positive Double.lettuce
  /\ Double.recipes_update Double.stocked (Recipes.StartByID "lettuce") 3%positive =
       ((Recipes.merge_active Double.stocked (Some "lettuce"),
         Effects.batch
           [ Effects.none;
             Effects.receive
               (Recipes.RequestStart
                  (Some {| address := 3%positive; _id := "lettuce";
                           fields := fields Double.lettuce |})) ]),
        4%positive).
Proof.
  assert (Hentry : Recipes.entries Double.stocked !! "lettuce" = Some Double.lettuce)
    by (vm_compute; reflexivity).
  assert (Hallocated : allocated 3%positive Double.lettuce) by reflexivity.
  split; [exact Hentry|]. split; [exact Hallocated|].
  exact (proj1 (startByID_activates_and_snapshots "recipes" "/recipes" Double.render
    (fun text => text) Double.recorder Double.recorder Double.modal
    Double.recipe_update Double.stocked "lettuce" Double.lettuce 3%positive
    Hentry Hallocated)).
Defined.

(** C10, witness: [Double.readings] has a recipe end and no recipe start;
    the tracker receives a Start of nothing. *)
Lemma restore_starts_without_marker_witness :
  Forall (fun dataPoint => Spec.has_variable "recipe_start" dataPoint = false)
    (Spec.dataPoints Double.readings)
  /\ Dashboard.currentRecipe
       (Double.dashboard_update Double.dashboard
          (Dashboard.Restore Double.readings) 1%positive).1.1 =
       [CurrentRecipe.Start None].
Proof.
  assert (Hnone : Forall
    (fun dataPoint => Spec.has_variable "recipe_start" dataPoint = false)
    (Spec.dataPoints Double.readings)).
  { repeat (constructor; [vm_compute; reflexivity|]). constructor. }
  split; [exact Hnone|].
  exact (proj1 (proj2 (proj2 (proj2 (restore_starts_without_marker
    "http://localhost:5984/latest" Double.recorder Double.recorder Double.recorder
    Double.dashboard Double.readings 1%positive Hnone))))).
Defined.

(** * Further facts: environmental-data-points.js *)

(** The four names are different strings: a data point whose [variable] is
    one of them is not matched under another. *)
Lemma has_variable_exclusive (dataPoint : object) :
  length (List.filter (fun matched : bool => matched)
    [ Spec.has_variable "recipe_start" dataPoint;
      Spec.has_variable "recipe_end" dataPoint;
      Spec.has_variable "air_temperature" dataPoint;
      Spec.has_variable "water_temperature" dataPoint ]) <= 1.
Proof.
  unfold Spec.has_variable.
  destruct (dataPoint !! "variable") as [variable|]; [|simpl; lia].
  repeat case_bool_decide; simplify_eq; simpl; lia.
Qed.

Lemma matchers_count (dataPoint : object) :
  length (List.filter (fun matched : bool => matched)
    [ Dashboard.isRecipeStart dataPoint; Dashboard.isRecipeEnd dataPoint;
      Dashboard.isAirTemperature dataPoint;
      Dashboard.isWaterTemperature dataPoint ]) <= 1.
Proof.
  unfold Dashboard.isRecipeStart, Dashboard.isRecipeEnd,
    Dashboard.isAirTemperature, Dashboard.isWaterTemperature.
  rewrite !has_variable_matcher. apply has_variable_exclusive.
Qed.

(** X1: a data point is matched by at most one of isRecipeStart,
    isRecipeEnd, isAirTemperature and isWaterTemperature, and by none of
    them when it has no variable property or when its variable is not a
    string. *)
Theorem matchers_are_exclusive (dataPoint : object) :
  length (List.filter (fun matched : bool => matched)
    [ Dashboard.isRecipeStart dataPoint; Dashboard.isRecipeEnd dataPoint;
      Dashboard.isAirTemperature dataPoint;
      Dashboard.isWaterTemperature dataPoint ]) <= 1
  /\ (match dataPoint !! "variable" with
      | Some (JStr _) => True
      | _ =>
          Dashboard.isRecipeStart dataPoint = false
          /\ Dashboard.isRecipeEnd dataPoint = false
          /\ Dashboard.isAirTemperature dataPoint = false
          /\ Dashboard.isWaterTemperature dataPoint = false
      end).
Proof.
  split; [apply matchers_count|].
  unfold Dashboard.isRecipeStart, Dashboard.isRecipeEnd,
    Dashboard.isAirTemperature, Dashboard.isWaterTemperature, Dashboard.matcher.
  destruct (dataPoint !! "variable") as [[]|]; try exact I; repeat split.
Qed.

(** X2: a row that is neither an air temperature, nor a water temperature,
    nor a recipe start (a recipe end, a row of another variable, a row
    without variable) can be put in or taken out of a record set, at any
    place, without a change in the actions of restore. *)
Theorem restore_ignores_other_rows (before after : list Row) (row : Row) :
  Dashboard.isAirTemperature (value row) = false ->
  Dashboard.isWaterTemperature (value row) = false ->
  Dashboard.isRecipeStart (value row) = false ->
  Dashboard.restoreActions {| rows := before ++ row :: after |} =
    Dashboard.restoreActions {| rows := before ++ after |}.
Proof.
  intros Hair Hwater Hstart.
  unfold Dashboard.restoreActions, Dashboard.readDataPoints,
    Dashboard.readMostRecentDataPoint, Dashboard.readDataPointFromRow. simpl.
  rewrite !List.map_app, !List.filter_app. simpl.
  rewrite Hair, Hwater, Hstart. reflexivity.
Qed.

Lemma readDataPoints_count (record : RecordSet) :
  length (Dashboard.readDataPoints record Dashboard.isRecipeStart)
  + length (Dashboard.readDataPoints record Dashboard.isRecipeEnd)
  + length (Dashboard.readDataPoints record Dashboard.isAirTemperature)
  + length (Dashboard.readDataPoints record Dashboard.isWaterTemperature)
  <= length (rows record).
Proof.
  unfold Dashboard.readDataPoints, Dashboard.readDataPointFromRow.
  destruct record as [rows]. simpl.
  induction rows as [|row rows IH]; simpl; [lia|].
  pose proof (matchers_count (value row)) as Hone. simpl in Hone.
  destruct (Dashboard.isRecipeStart (value row)),
    (Dashboard.isRecipeEnd (value row)),
    (Dashboard.isAirTemperature (value row)),
    (Dashboard.isWaterTemperature (value row)); simpl in *; lia.
Qed.

(** X3: the four readings of a record set share no row: the numbers of the
    recipe starts, the recipe ends, the air temperatures and the water
    temperatures that readDataPoints returns add up to the number of rows at
    most, and no data point is returned both as an air temperature and as a
    water temperature. *)
Theorem readDataPoints_partition (record : RecordSet) :
  length (Dashboard.readDataPoints record Dashboard.isRecipeStart)
  + length (Dashboard.readDataPoints record Dashboard.isRecipeEnd)
  + length (Dashboard.readDataPoints record Dashboard.isAirTemperature)
  + length (Dashboard.readDataPoints record Dashboard.isWaterTemperature)
  <= length (rows record)
  /\ Forall (fun dataPoint => Dashboard.isWaterTemperature dataPoint = false)
       (Dashboard.readDataPoints record Dashboard.isAirTemperature)
  /\ Forall (fun dataPoint => Dashboard.isAirTemperature dataPoint = false)
       (Dashboard.readDataPoints record Dashboard.isWaterTemperature).
Proof.
  split; [apply readDataPoints_count|].
  unfold Dashboard.readDataPoints.
  split; apply List.Forall_forall; intros dataPoint Hin;
    apply List.filter_In in Hin as [_ Hmatched];
    pose proof (matchers_count dataPoint) as Hone; simpl in Hone;
    rewrite Hmatched in Hone;
    destruct (Dashboard.isRecipeStart dataPoint),
      (Dashboard.isRecipeEnd dataPoint); simpl in Hone.
  all: try (destruct (Dashboard.isWaterTemperature dataPoint); simpl in Hone;
            [lia|reflexivity]).
  all: destruct (Dashboard.isAirTemperature dataPoint); simpl in Hone;
    [lia|reflexivity].
Qed.

(** X4: on a record set made of two runs of rows, readMostRecentDataPoint
    returns what it returns on the first run when that is a data point, and
    what it returns on the second run otherwise: rows added at the end of
    a record set that has a match are not looked at. *)
Theorem readMostRecentDataPoint_app
    (first second : list Row) (predicate : object -> bool) :
  Dashboard.readMostRecentDataPoint {| rows := first ++ second |} predicate =
    match Dashboard.readMostRecentDataPoint {| rows := first |} predicate with
    | Some dataPoint => Some dataPoint
    | None => Dashboard.readMostRecentDataPoint {| rows := second |} predicate
    end.
Proof.
  rewrite !readMostRecentDataPoint_head. unfold Spec.dataPoints. simpl.
  rewrite List.map_app, List.filter_app.
  destruct (List.filter predicate (List.map value first)); reflexivity.
Qed.

Lemma readDataPoints_none (record : RecordSet) (predicate : object -> bool) :
  Forall (fun row => predicate (value row) = false) (rows record) ->
  Dashboard.readDataPoints record predicate = [].
Proof.
  unfold Dashboard.readDataPoints, Dashboard.readDataPointFromRow.
  induction 1 as [|row rows Hrow _ IH]; simpl; [reflexivity|].
  rewrite Hrow. exact IH.
Qed.

Section DashboardMore.

Context (ORIGIN_LATEST : string) {PollModel DataPointModel CurrentRecipeModel : Type}.
Context (Poll_update : PollModel -> Poll.Action -> PollModel * Effects Poll.Action).
Context (EnvironmentalDataPoint_update
  : DataPointModel -> EnvironmentalDataPoint.Action
    -> DataPointModel * Effects EnvironmentalDataPoint.Action).
Context (CurrentRecipe_update
  : CurrentRecipeModel -> CurrentRecipe.Action
    -> CurrentRecipeModel * Effects CurrentRecipe.Action).

Local Abbreviation Model := (Dashboard.Model PollModel DataPointModel CurrentRecipeModel).
Local Abbreviation update :=
  (Dashboard.update ORIGIN_LATEST Poll_update EnvironmentalDataPoint_update
     CurrentRecipe_update).

(** X5: the tagging function of the poll never hands a Ping back to the
    poll.  A Ping becomes the request for the latest record set, also when
    the poll asks to receive it, and the update answers that request with a
    Get of ORIGIN_LATEST on the model as it is; Pong and Miss are tagged
    Poll. *)
Theorem pollAction_ping_fetches (model : Model) (action : Poll.Action) (heap : Heap) :
  Dashboard.PollAction ORIGIN_LATEST action <> Dashboard.Poll Poll.Ping
  /\ Dashboard.PollAction ORIGIN_LATEST Poll.Ping = Dashboard.Get ORIGIN_LATEST
  /\ Dashboard.PollAction ORIGIN_LATEST Poll.Pong = Dashboard.Poll Poll.Pong
  /\ Dashboard.PollAction ORIGIN_LATEST Poll.Miss = Dashboard.Poll Poll.Miss
  /\ Effects.map (Dashboard.PollAction ORIGIN_LATEST) (Effects.receive Poll.Ping) =
       Effects.receive (Dashboard.Get ORIGIN_LATEST)
  /\ update model (Dashboard.PollAction ORIGIN_LATEST Poll.Ping) heap =
       Request.get Dashboard.Got model ORIGIN_LATEST heap.
Proof.
  split; [destruct action; discriminate|].
  repeat split.
Qed.

Lemma dashboard_update_airTemperature
    (model : Model) (source : EnvironmentalDataPoint.Action) heap :
  update model (Dashboard.AirTemperature source) heap =
    ((Dashboard.merge_airTemperature model
        (EnvironmentalDataPoint_update (Dashboard.airTemperature model) source).1,
      Effects.map Dashboard.AirTemperature
        (EnvironmentalDataPoint_update (Dashboard.airTemperature model) source).2),
     heap).
Proof.
  rewrite dashboard_update_unfold.
  unfold Dashboard.update_body, ret, Dashboard.updateAirTemperature, cursor.
  destruct (EnvironmentalDataPoint_update _ source). reflexivity.
Qed.

Lemma dashboard_update_waterTemperature
    (model : Model) (source : EnvironmentalDataPoint.Action) heap :
  update model (Dashboard.WaterTemperature source) heap =
    ((Dashboard.merge_waterTemperature model
        (EnvironmentalDataPoint_update (Dashboard.waterTemperature model) source).1,
      Effects.map Dashboard.WaterTemperature
        (EnvironmentalDataPoint_update (Dashboard.waterTemperature model) source).2),
     heap).
Proof.
  rewrite dashboard_update_unfold.
  unfold Dashboard.update_body, ret, Dashboard.updateWaterTemperature, cursor.
  destruct (EnvironmentalDataPoint_update _ source). reflexivity.
Qed.

Lemma dashboard_update_currentRecipe
    (model : Model) (source : CurrentRecipe.Action) heap :
  update model (Dashboard.CurrentRecipe source) heap =
    ((Dashboard.merge_currentRecipe model
        (CurrentRecipe_update (Dashboard.currentRecipe model) source).1,
      Effects.map Dashboard.CurrentRecipe
        (CurrentRecipe_update (Dashboard.currentRecipe model) source).2),
     heap).
Proof.
  rewrite dashboard_update_unfold.
  unfold Dashboard.update_body, ret, Dashboard.updateCurrentRecipe, cursor.
  destruct (CurrentRecipe_update _ source). reflexivity.
Qed.

(** X6: the two series share one update function and stay apart: an action
    tagged AirTemperature is run on the airTemperature field and written
    back there, one tagged WaterTemperature on the waterTemperature field,
    and each leaves the other series, the poll and the tracker as they
    were.  The state after one of each does not depend on which came
    first. *)
Theorem series_are_independent
    (model : Model) (air water : EnvironmentalDataPoint.Action) (heap : Heap) :
  let aired := (update model (Dashboard.AirTemperature air) heap).1.1 in
  let watered := (update model (Dashboard.WaterTemperature water) heap).1.1 in
  Dashboard.airTemperature aired =
    (EnvironmentalDataPoint_update (Dashboard.airTemperature model) air).1
  /\ Dashboard.waterTemperature aired = Dashboard.waterTemperature model
  /\ Dashboard.poll aired = Dashboard.poll model
  /\ Dashboard.currentRecipe aired = Dashboard.currentRecipe model
  /\ Dashboard.waterTemperature watered =
       (EnvironmentalDataPoint_update (Dashboard.waterTemperature model) water).1
  /\ Dashboard.airTemperature watered = Dashboard.airTemperature model
  /\ Dashboard.poll watered = Dashboard.poll model
  /\ Dashboard.currentRecipe watered = Dashboard.currentRecipe model
  /\ (update aired (Dashboard.WaterTemperature water) heap).1.1 =
       (update watered (Dashboard.AirTemperature air) heap).1.1.
Proof.
  intros aired watered. subst aired watered.
  rewrite !dashboard_update_airTemperature, !dashboard_update_waterTemperature.
  repeat split.
Qed.

(** The state that Restore returns. *)
Lemma dashboard_restore_state (model : Model) (record : RecordSet) heap :
  (update model (Dashboard.Restore record) heap).1.1 =
    {| Dashboard.currentRecipe :=
         (CurrentRecipe_update (Dashboard.currentRecipe model)
            (CurrentRecipe.Start
               (Dashboard.readMostRecentDataPoint record Dashboard.isRecipeStart))).1;
       Dashboard.poll := Dashboard.poll model;
       Dashboard.airTemperature :=
         (EnvironmentalDataPoint_update (Dashboard.airTemperature model)
            (EnvironmentalDataPoint.AddMany
               (Dashboard.readDataPoints record Dashboard.isAirTemperature))).1;
       Dashboard.waterTemperature :=
         (EnvironmentalDataPoint_update (Dashboard.waterTemperature model)
            (EnvironmentalDataPoint.AddMany
               (Dashboard.readDataPoints record Dashboard.isWaterTemperature))).1 |}.
Proof.
  rewrite dashboard_update_restore.
  unfold Dashboard.restoreActions, Dashboard.AddManyAirTemperatures,
    Dashboard.AddManyWaterTemperatures, Dashboard.CurrentRecipeStart, compose.
  unfold Dashboard.AirTemperatureAction, Dashboard.WaterTemperatureAction,
    Dashboard.CurrentRecipeAction.
  rewrite dashboard_batch_restore.
  destruct (EnvironmentalDataPoint_update (Dashboard.airTemperature model) _).
  destruct (EnvironmentalDataPoint_update (Dashboard.waterTemperature model) _).
  destruct (CurrentRecipe_update (Dashboard.currentRecipe model) _).
  reflexivity.
Qed.

(** X7: the state after Got with an Ok result is the state after a Restore
    of the record set followed by a Pong to the poll, and also the state
    after the Pong followed by the Restore: the Restore leaves the poll as
    it is and the Pong leaves the series and the tracker as they are. *)
Theorem gotOk_is_restore_and_pong_in_any_order
    (model : Model) (record : RecordSet) (heap : Heap) :
  let restored := (update model (Dashboard.Restore record) heap).1.1 in
  let ponged := (update model (Dashboard.Poll Poll.Pong) heap).1.1 in
  (update model (Dashboard.Got (Result.Ok record)) heap).1.1 =
    (update restored (Dashboard.Poll Poll.Pong) heap).1.1
  /\ (update model (Dashboard.Got (Result.Ok record)) heap).1.1 =
       (update ponged (Dashboard.Restore record) heap).1.1
  /\ Dashboard.poll restored = Dashboard.poll model
  /\ Dashboard.airTemperature ponged = Dashboard.airTemperature model
  /\ Dashboard.waterTemperature ponged = Dashboard.waterTemperature model
  /\ Dashboard.currentRecipe ponged = Dashboard.currentRecipe model.
Proof.
  intros restored ponged. subst restored ponged.
  rewrite dashboard_update_gotOk, !dashboard_restore_state, !dashboard_update_poll.
  unfold Dashboard.isRecipeStart, Dashboard.isAirTemperature,
    Dashboard.isWaterTemperature.
  rewrite !readDataPoints_filter, !readMostRecent_variable.
  repeat split.
Qed.

(** X8: for every record set with no air temperature and no water
    temperature, restore does not skip the series: each receives AddMany of
    the empty list, and its state is what its update returns on it. *)
Theorem restore_without_readings (model : Model) (record : RecordSet) (heap : Heap) :
  Forall (fun row => Dashboard.isAirTemperature (value row) = false) (rows record) ->
  Forall (fun row => Dashboard.isWaterTemperature (value row) = false) (rows record) ->
  let restored := (update model (Dashboard.Restore record) heap).1.1 in
  Dashboard.readDataPoints record Dashboard.isAirTemperature = []
  /\ Dashboard.readDataPoints record Dashboard.isWaterTemperature = []
  /\ Dashboard.airTemperature restored =
       (EnvironmentalDataPoint_update (Dashboard.airTemperature model)
          (EnvironmentalDataPoint.AddMany [])).1
  /\ Dashboard.waterTemperature restored =
       (EnvironmentalDataPoint_update (Dashboard.waterTemperature model)
          (EnvironmentalDataPoint.AddMany [])).1.
Proof.
  intros Hair Hwater restored. subst restored.
  rewrite dashboard_restore_state. simpl.
  rewrite (readDataPoints_none _ _ Hair), (readDataPoints_none _ _ Hwater).
  repeat split.
Qed.

Context {Title : Type} (LANG : string -> Title).
Context (Poll_init : PollModel * Effects Poll.Action).
Context (CurrentRecipe_init : CurrentRecipeModel * Effects CurrentRecipe.Action).
Context (EnvironmentalDataPoint_init
  : string -> Title -> DataPointModel * Effects EnvironmentalDataPoint.Action).

(** X9: whatever the sub-models start with, the initial model is made of
    their initial states, the air series being started under the name
    air_temperature and the water series under water_temperature, and the
    initial effect is a batch of five whose last is the request for the
    latest record set; a Ping that the poll asks for at start is a request
    for the latest record set too. *)
Theorem init_requests_latest :
  let started :=
    Dashboard.init ORIGIN_LATEST LANG Poll_init CurrentRecipe_init
      EnvironmentalDataPoint_init in
  started.1 =
    {| Dashboard.currentRecipe := CurrentRecipe_init.1;
       Dashboard.poll := Poll_init.1;
       Dashboard.airTemperature :=
         (EnvironmentalDataPoint_init "air_temperature" (LANG "air_temperature")).1;
       Dashboard.waterTemperature :=
         (EnvironmentalDataPoint_init "water_temperature" (LANG "water_temperature")).1 |}
  /\ started.2 =
       Effects.batch
         [ Effects.map Dashboard.CurrentRecipe CurrentRecipe_init.2;
           Effects.map (Dashboard.PollAction ORIGIN_LATEST) Poll_init.2;
           Effects.map Dashboard.AirTemperature
             (EnvironmentalDataPoint_init "air_temperature" (LANG "air_temperature")).2;
           Effects.map Dashboard.WaterTemperature
             (EnvironmentalDataPoint_init "water_temperature"
                (LANG "water_temperature")).2;
           Effects.receive (Dashboard.Get ORIGIN_LATEST) ]
  /\ last (Effects.leaves started.2) =
       Some (Effects.receive (Dashboard.Get ORIGIN_LATEST)).
Proof.
  unfold Dashboard.init, Dashboard.AIR_TEMPERATURE, Dashboard.WATER_TEMPERATURE.
  destruct Poll_init as [poll pollFx].
  destruct CurrentRecipe_init as [currentRecipe currentRecipeFx].
  destruct (EnvironmentalDataPoint_init "air_temperature" _) as [air airFx].
  destruct (EnvironmentalDataPoint_init "water_temperature" _) as [water waterFx].
  simpl. split; [reflexivity|]. split; [reflexivity|].
  rewrite !app_assoc. apply last_snoc.
Qed.

End DashboardMore.

(** * Further facts: recipes.js *)

Lemma indexed_add {BannerModel FormModel}
    (model : Recipes.Model BannerModel FormModel) (recipe : Document) :
  Spec.indexed model ->
  Spec.indexed (Recipes.Indexed_add model (_id recipe) recipe).
Proof.
  unfold Spec.indexed, Recipes.Indexed_add. simpl. intros Hindexed id.
  destruct (decide (id = _id recipe)) as [->|Hne].
  - rewrite lookup_insert_eq. split; [intros _; eexists; reflexivity|]. intros _.
    destruct (Recipes.entries model !! _id recipe) eqn:Hentry.
    + apply Hindexed. rewrite Hentry. eexists; reflexivity.
    + apply elem_of_app. right. apply list_elem_of_singleton. reflexivity.
  - rewrite lookup_insert_ne by congruence. rewrite <- Hindexed.
    destruct (Recipes.entries model !! _id recipe); [reflexivity|].
    rewrite elem_of_app, list_elem_of_singleton. tauto.
Qed.

Lemma indexed_restored {BannerModel FormModel}
    (model : Recipes.Model BannerModel FormModel) (recipes : list Document) :
  Spec.indexed
    (Recipes.merge_order_entries model (List.map Recipes.getPouchID recipes)
       (Recipes.indexWith recipes Recipes.getPouchID)).
Proof.
  unfold Spec.indexed. simpl. intros id.
  rewrite <- elem_of_dom, indexWith_dom, elem_of_list_to_set. reflexivity.
Qed.

Section RecipesMore.

Context (recipes_local recipes_origin : string).
Context (Template_render : string -> string -> string) (localize : string -> string).
Context {BannerModel FormModel FormLocal RecipeLocal : Type}.
Context (Banner_update
  : BannerModel -> Banner.Action -> BannerModel * Effects Banner.Action).
Context (RecipesForm_update
  : FormModel -> RecipesForm.Action FormLocal
    -> FormModel * Effects (RecipesForm.Action FormLocal)).
Context (Modal_update
  : Recipes.Model BannerModel FormModel -> Modal.Action
    -> Recipes.Model BannerModel FormModel * Effects Modal.Action).
Context (Recipe_update
  : Document -> Recipe.Action RecipeLocal
    -> Document * Effects (Recipe.Action RecipeLocal)).

Local Abbreviation Model := (Recipes.Model BannerModel FormModel).
Local Abbreviation Action := (Recipes.Action FormLocal RecipeLocal).
Local Abbreviation update :=
  (Recipes.update recipes_local recipes_origin Template_render localize
     Banner_update RecipesForm_update Modal_update Recipe_update).
Local Abbreviation DB := (Recipes.DB recipes_local).

Lemma recipes_update_recipesForm
    (model : Model) (source : RecipesForm.Action FormLocal) heap :
  update model (Recipes.RecipesForm source) heap =
    ((Recipes.merge_recipesForm model
        (RecipesForm_update (Recipes.recipesForm model) source).1,
      Effects.map Recipes.RecipesFormAction
        (RecipesForm_update (Recipes.recipesForm model) source).2),
     heap).
Proof.
  rewrite recipes_update_unfold.
  unfold Recipes.update_body, ret, Recipes.updateRecipesForm, cursor.
  destruct (RecipesForm_update (Recipes.recipesForm model) source). reflexivity.
Qed.

Lemma recipes_update_startByID (model : Model) (id : string) heap :
  update model (Recipes.StartByID id) heap =
    ((Recipes.merge_active model (Some id),
      Effects.batch
        [ Effects.none;
          Effects.receive
            (Recipes.RequestStart (merge_empty (Recipes.entries model !! id) heap).1) ]),
     Pos.succ heap).
Proof. rewrite recipes_update_unfold. reflexivity. Qed.

(** X10: the action mapper of a recipe rewrites its Activate into
    StartByID of the ID of that recipe, which is not an action tagged
    Recipe, and tags every other action with the ID; the update takes the
    rewritten Activate as it takes StartByID(id). *)
Theorem recipeAction_activate_starts
    (model : Model) (id : string) (other : RecipeLocal) (heap : Heap) :
  Recipes.ByID id Recipe.Activate = (Recipes.StartByID id : Action)
  /\ (forall (id' : string) (source : Recipe.Action RecipeLocal),
        Recipes.ByID id Recipe.Activate <> (Recipes.Recipe id' source : Action))
  /\ Recipes.ByID id (Recipe.Other other) =
       (Recipes.Recipe id (Recipe.Other other) : Action)
  /\ Effects.map (Recipes.ByID id) (Effects.receive Recipe.Activate) =
       Effects.receive (Recipes.StartByID id : Action)
  /\ update model (Recipes.ByID id Recipe.Activate) heap =
       update model (Recipes.StartByID id) heap.
Proof.
  split; [reflexivity|]. split; [intros id' source; discriminate|].
  repeat split.
Qed.

(** X11: for every manager model whose origin is null or the empty string,
    Sync returns the model as it is and no effect: no request reaches the
    database.  That is so on the initial model, whatever the sub-models
    start with. *)
Theorem sync_without_origin_is_noop
    (model : Model) (Banner_init : BannerModel * Effects Banner.Action)
    (RecipesForm_init : FormModel * Effects (RecipesForm.Action FormLocal))
    (heap : Heap) :
  Recipes.origin model = None \/ Recipes.origin model = Some "" ->
  let initial : Model :=
    (Recipes.init (RecipeLocal := RecipeLocal) Banner_init RecipesForm_init).1 in
  update model Recipes.Sync heap = ((model, Effects.none), heap)
  /\ update initial Recipes.Sync heap = ((initial, Effects.none), heap).
Proof.
  intros Horigin initial. rewrite !recipes_update_sync. split.
  - apply sync_without_origin. destruct Horigin as [->| ->]; reflexivity.
  - apply sync_without_origin. subst initial. unfold Recipes.init.
    destruct RecipesForm_init, Banner_init. reflexivity.
Qed.

(** X12: Synced with an Ok result is taken as RestoreRecipes: the model is
    returned as it is with one restore-all request, whose answer comes back
    as RestoredRecipes.  Synced with an Error result asks nothing of the
    database: it sends a dismissable alert to the banner and does nothing
    else, so that origin, order, entries and active are those of the model
    and the effect is the effect of the banner, tagged. *)
Theorem synced_restores_or_alerts
    (model : Model) (value : unit) (error : Error) (heap : Heap) :
  let alerted :=
    Banner_update (Recipes.banner model)
      (Banner.AlertDismissable
         (localize "Couldn't sync with the cloud. Using local database.")) in
  let failed := Recipes.merge_banner model alerted.1 in
  update model (Recipes.Synced (Result.Ok value)) heap =
    update model Recipes.RestoreRecipes heap
  /\ update model (Recipes.Synced (Result.Ok value)) heap =
       ((model, Effects.task (DbRestore DB) Recipes.RestoredRecipes), heap)
  /\ update model (Recipes.Synced (Result.Error error)) heap =
       ((failed, Effects.map Recipes.Banner alerted.2), heap)
  /\ Recipes.origin failed = Recipes.origin model
  /\ Recipes.order failed = Recipes.order model
  /\ Recipes.entries failed = Recipes.entries model
  /\ Recipes.active failed = Recipes.active model.
Proof.
  intros alerted failed.
  split; [rewrite recipes_update_unfold; reflexivity|].
  split; [rewrite recipes_update_unfold; reflexivity|].
  split; [|repeat split].
  assert (Herror : update model (Recipes.Synced (Result.Error error)) heap =
    update model
      (Recipes.Banner (Banner.AlertDismissable
         (localize "Couldn't sync with the cloud. Using local database."))) heap)
    by (rewrite recipes_update_unfold; reflexivity).
  rewrite Herror. apply recipes_update_banner.
Qed.

(** X13: ActivatePanel writes the activePanel field and nothing else, so
    the last ActivatePanel wins; a Back of the form, whatever panel is
    active, leaves no panel active, and on a model with no active panel,
    opening a panel and going Back gives the model again. *)
Theorem activatePanel_then_back (model : Model) (first second : option string) (heap : Heap) :
  let opened := (update model (Recipes.ActivatePanel first) heap).1.1 in
  (update opened (Recipes.ActivatePanel second) heap).1.1 =
    (update model (Recipes.ActivatePanel second) heap).1.1
  /\ Recipes.activePanel opened = first
  /\ opened = Recipes.merge_activePanel model first
  /\ Recipes.activePanel
       (update opened (Recipes.RecipesFormAction RecipesForm.Back) heap).1.1 = None
  /\ (update opened (Recipes.RecipesFormAction RecipesForm.Back) heap).1.1 =
       Recipes.merge_activePanel model None.
Proof.
  intros opened.
  assert (Hopened : opened = Recipes.merge_activePanel model first)
    by (subst opened; rewrite recipes_update_unfold; reflexivity).
  rewrite Hopened.
  split; [rewrite !recipes_update_unfold; reflexivity|].
  split; [reflexivity|]. split; [reflexivity|].
  split; rewrite recipes_update_unfold; reflexivity.
Qed.

(** X14: a restore replaces what a put inserted.  For every model, recipe
    and sequence of records, RestoredRecipes with an Ok result returns on
    the state after Put(recipe) what it returns on the model; the recipe
    is in entries after it only if the sequence has a record of its _id;
    and a second RestoredRecipes with the same result changes nothing. *)
Theorem restore_overrides_put
    (model : Model) (recipe : Document) (recipes : list Document) (heap : Heap) :
  let inserted := (update model (Recipes.Put recipe) heap).1.1 in
  let restored :=
    (update model (Recipes.RestoredRecipes (Result.Ok recipes)) heap).1.1 in
  update inserted (Recipes.RestoredRecipes (Result.Ok recipes)) heap =
    update model (Recipes.RestoredRecipes (Result.Ok recipes)) heap
  /\ (Recipes.entries restored !! _id recipe = None <->
      _id recipe ∉ List.map _id recipes)
  /\ (_id recipe ∈ Recipes.order restored <-> _id recipe ∈ List.map _id recipes)
  /\ update restored (Recipes.RestoredRecipes (Result.Ok recipes)) heap =
       ((restored, Effects.none), heap).
Proof.
  intros inserted restored. subst inserted restored.
  split; [rewrite !recipes_update_unfold; reflexivity|].
  split.
  { rewrite recipes_update_unfold. simpl.
    rewrite <- not_elem_of_dom, indexWith_dom, elem_of_list_to_set. reflexivity. }
  split; [rewrite recipes_update_unfold; reflexivity|].
  rewrite !recipes_update_unfold. reflexivity.
Qed.

(** X15: for every manager model and every id at which entries holds
    nothing, StartByID(id) still makes id the active one and still queues a
    RequestStart: its payload is the object with no property, and entries
    is as it was. *)
Theorem startByID_missing_entry (model : Model) (id : string) (heap : Heap) :
  Recipes.entries model !! id = None ->
  let next := Recipes.merge_active model (Some id) in
  update model (Recipes.StartByID id) heap =
    ((next,
      Effects.batch [Effects.none; Effects.receive (Recipes.RequestStart None)]),
     Pos.succ heap)
  /\ Recipes.active next = Some id
  /\ Recipes.entries next !! id = None
  /\ Recipes.order next = Recipes.order model.
Proof.
  intros Hmissing next.
  split; [|repeat split; exact Hmissing].
  rewrite recipes_update_startByID. unfold merge_empty. rewrite Hmissing.
  reflexivity.
Qed.

(** X16: an action tagged RecipesForm is run by the update of the form on
    the recipesForm field and written back there, and what the form asks
    for goes through the action mapper of the form: when the form answers
    an action by asking to receive the submission of a recipe, the manager
    asks to receive Put of that recipe, and order and entries are not yet
    changed. *)
Theorem form_submission_becomes_put
    (model : Model) (source : RecipesForm.Action FormLocal)
    (form : FormModel) (recipe : Document) (heap : Heap) :
  RecipesForm_update (Recipes.recipesForm model) source =
    (form, Effects.receive (RecipesForm.Submitted recipe)) ->
  let next := Recipes.merge_recipesForm model form in
  update model (Recipes.RecipesForm source) heap =
    ((next, Effects.receive (Recipes.Put recipe)), heap)
  /\ Recipes.recipesForm next = form
  /\ Recipes.order next = Recipes.order model
  /\ Recipes.entries next = Recipes.entries model.
Proof.
  intros Hform next.
  split; [|repeat split].
  rewrite recipes_update_recipesForm, Hform. reflexivity.
Qed.

(** X17: a recipe can be started as soon as it is put.  For every model
    and recipe, StartByID of recipe._id on the state that Put(recipe)
    returned makes it the active one and queues a RequestStart whose
    payload has the _id and the fields of the recipe, at a new address. *)
Theorem put_then_startByID (model : Model) (recipe : Document) (heap : Heap) :
  let inserted := (update model (Recipes.Put recipe) heap).1.1 in
  let snapshot := {| address := heap; _id := _id recipe; fields := fields recipe |} in
  update inserted (Recipes.StartByID (_id recipe)) heap =
    ((Recipes.merge_active inserted (Some (_id recipe)),
      Effects.batch
        [ Effects.none; Effects.receive (Recipes.RequestStart (Some snapshot)) ]),
     Pos.succ heap)
  /\ Recipes.entries (Recipes.merge_active inserted (Some (_id recipe)))
       !! _id recipe = Some recipe.
Proof.
  intros inserted snapshot.
  assert (Hentry : Recipes.entries inserted !! _id recipe = Some recipe).
  { subst inserted. rewrite recipes_update_unfold. simpl. apply lookup_insert_eq. }
  split; [|exact Hentry].
  rewrite recipes_update_startByID. unfold merge_empty. rewrite Hentry.
  reflexivity.
Qed.

Lemma indexed_updateWithID (model : Model) (id : string)
    (source : Recipe.Action RecipeLocal) :
  Spec.indexed model ->
  Spec.indexed
    (Recipes.updateByID (FormLocal := FormLocal) Recipe_update model id source).1.
Proof.
  unfold Recipes.updateByID, Recipes.Indexed_updateWithID. intros Hindexed.
  destruct (Recipes.entries model !! id) as [entity|] eqn:Hentity; [|exact Hindexed].
  destruct (Recipe_update entity source) as [next fx]. simpl.
  unfold Spec.indexed. simpl. intros key.
  destruct (decide (key = id)) as [->|Hne].
  - rewrite lookup_insert_eq. split; [intros _; eexists; reflexivity|]. intros _.
    apply Hindexed. rewrite Hentity. eexists; reflexivity.
  - rewrite lookup_insert_ne by congruence. apply Hindexed.
Qed.

(** X18: the IDs of order are the keys of entries, and every action keeps
    it so, provided the modal keeps order and entries: the initial model
    has it, and for every model that has it and every action, so has the
    state the update returns. *)
Theorem update_keeps_index
    (model : Model) (action : Action) (heap : Heap)
    (Banner_init : BannerModel * Effects Banner.Action)
    (RecipesForm_init : FormModel * Effects (RecipesForm.Action FormLocal)) :
  (forall (shown : Model) (modal : Modal.Action),
     Recipes.order (Modal_update shown modal).1 = Recipes.order shown
     /\ Recipes.entries (Modal_update shown modal).1 = Recipes.entries shown) ->
  Spec.indexed model ->
  Spec.indexed (update model action heap).1.1
  /\ Spec.indexed (Recipes.init (FormLocal := FormLocal) (RecipeLocal := RecipeLocal)
                     Banner_init RecipesForm_init).1.
Proof.
  intros Hmodal Hindexed. split.
  - destruct action as
      [source|source|source|source| |recipe|result| |[recipes|error]|id|id|
       |[[]|error]|id source|origin|snapshot].
    + rewrite recipes_update_unfold. destruct source. exact Hindexed.
    + rewrite recipes_update_banner. exact Hindexed.
    + rewrite recipes_update_recipesForm. exact Hindexed.
    + rewrite recipes_update_unfold.
      unfold Recipes.update_body, ret, Recipes.updateModal, cursor.
      destruct (Hmodal model source) as [Horder Hentries].
      destruct (Modal_update model source) as [next fx]. simpl in *.
      unfold Spec.indexed. rewrite Horder, Hentries. exact Hindexed.
    + rewrite recipes_update_unfold. exact Hindexed.
    + rewrite recipes_update_unfold. apply indexed_add. exact Hindexed.
    + rewrite recipes_update_unfold. destruct result; exact Hindexed.
    + rewrite recipes_update_unfold. exact Hindexed.
    + rewrite recipes_update_unfold. apply indexed_restored.
    + assert (Herror : update model (Recipes.RestoredRecipes (Result.Error error)) heap =
        update model
          (Recipes.Banner (Banner.AlertRefreshable
             (localize "Hmm, couldn't read from your browser's database."))) heap)
        by (rewrite recipes_update_unfold; reflexivity).
      rewrite Herror, recipes_update_banner. exact Hindexed.
    + rewrite recipes_update_startByID. exact Hindexed.
    + rewrite recipes_update_unfold. exact Hindexed.
    + rewrite recipes_update_sync. unfold Recipes.sync.
      destruct (Recipes.truthy (Recipes.origin model)); exact Hindexed.
    + rewrite recipes_update_unfold. exact Hindexed.
    + assert (Herror : update model (Recipes.Synced (Result.Error error)) heap =
        update model
          (Recipes.Banner (Banner.AlertDismissable
             (localize "Couldn't sync with the cloud. Using local database."))) heap)
        by (rewrite recipes_update_unfold; reflexivity).
      rewrite Herror, recipes_update_banner. exact Hindexed.
    + rewrite recipes_update_unfold. apply indexed_updateWithID. exact Hindexed.
    + rewrite recipes_update_unfold. simpl.
      unfold Recipes.configure. rewrite batch_two.
      rewrite !recipes_update_unfold. simpl.
      rewrite recipes_update_sync. unfold Recipes.sync.
      destruct (Recipes.truthy _); exact Hindexed.
    + rewrite recipes_update_unfold. exact Hindexed.
  - unfold Recipes.init. destruct RecipesForm_init, Banner_init.
    unfold Spec.indexed. simpl. intros id. rewrite lookup_empty.
    split; [intros Hin; inversion Hin|intros [entity Hentity]; discriminate].
Qed.

End RecipesMore.

(** * The further facts on the test doubles *)

(** X2, witness: a recipe end between an air temperature and a recipe
    start. *)
Lemma restore_ignores_other_rows_witness :
  Dashboard.isAirTemperature (value (Double.row "recipe_end" 20)) = false
  /\ Dashboard.isWaterTemperature (value (Double.row "recipe_end" 20)) = false
  /\ Dashboard.isRecipeStart (value (Double.row "recipe_end" 20)) = false
  /\ Dashboard.restoreActions
       {| rows := [Double.row "air_temperature" 30] ++
                  Double.row "recipe_end" 20 :: [Double.row "recipe_start" 10] |} =
     Dashboard.restoreActions
       {| rows := [Double.row "air_temperature" 30] ++ [Double.row "recipe_start" 10] |}.
Proof.
  assert (Hair : Dashboard.isAirTemperature (value (Double.row "recipe_end" 20)) = false)
    by (vm_compute; reflexivity).
  assert (Hwater : Dashboard.isWaterTemperature (value (Double.row "recipe_end" 20)) = false)
    by (vm_compute; reflexivity).
  assert (Hstart : Dashboard.isRecipeStart (value (Double.row "recipe_end" 20)) = false)
    by (vm_compute; reflexivity).
  split; [exact Hair|]. split; [exact Hwater|]. split; [exact Hstart|].
  exact (restore_ignores_other_rows [Double.row "air_temperature" 30]
    [Double.row "recipe_start" 10] (Double.row "recipe_end" 20) Hair Hwater Hstart).
Defined.

(** X8, witness: [Double.markers] has no reading; both series receive the
    empty list. *)
Lemma restore_without_readings_witness :
  Forall (fun row => Dashboard.isAirTemperature (value row) = false)
    (rows Double.markers)
  /\ Forall (fun row => Dashboard.isWaterTemperature (value row) = false)
       (rows Double.markers)
  /\ Dashboard.airTemperature
       (Double.dashboard_update Double.dashboard
          (Dashboard.Restore Double.markers) 1%positive).1.1 =
       [EnvironmentalDataPoint.AddMany []]
  /\ Dashboard.waterTemperature
       (Double.dashboard_update Double.dashboard
          (Dashboard.Restore Double.markers) 1%positive).1.1 =
       [EnvironmentalDataPoint.AddMany []].
Proof.
  assert (Hair : Forall (fun row => Dashboard.isAirTemperature (value row) = false)
    (rows Double.markers)).
  { repeat (constructor; [vm_compute; reflexivity|]). constructor. }
  assert (Hwater : Forall (fun row => Dashboard.isWaterTemperature (value row) = false)
    (rows Double.markers)).
  { repeat (constructor; [vm_compute; reflexivity|]). constructor. }
  split; [exact Hair|]. split; [exact Hwater|].
  exact (proj2 (proj2 (restore_without_readings "http://localhost:5984/latest"
    Double.recorder Double.recorder Double.recorder Double.dashboard Double.markers
    1%positive Hair Hwater))).
Defined.

(** X11, witness: Sync on the initial model, whose origin is null. *)
Lemma sync_without_origin_is_noop_witness :
  (Recipes.origin Double.recipes_init.1 = None
   \/ Recipes.origin Double.recipes_init.1 = Some "")
  /\ Double.recipes_update Double.recipes_init.1 Recipes.Sync 1%positive =
       ((Double.recipes_init.1, Effects.none), 1%positive).
Proof.
  assert (Horigin : Recipes.origin Double.recipes_init.1 = None
                    \/ Recipes.origin Double.recipes_init.1 = Some "")
    by (left; reflexivity).
  split; [exact Horigin|].
  exact (proj1 (sync_without_origin_is_noop "recipes" "/recipes" Double.render
    (fun text => text) Double.recorder Double.recorder Double.modal
    Double.recipe_update Double.recipes_init.1 ([], Effects.none)
    ([], Effects.none) 1%positive Horigin)).
Defined.

(** X15, witness: starting a recipe that the manager does not hold. *)
Lemma startByID_missing_entry_witness :
  Recipes.entries Double.stocked !! "tomato" = None
  /\ Double.recipes_update Double.stocked (Recipes.StartByID "tomato") 3%positive =
       ((Recipes.merge_active Double.stocked (Some "tomato"),
         Effects.batch [Effects.none; Effects.receive (Recipes.RequestStart None)]),
        4%positive).
Proof.
  assert (Hmissing : Recipes.entries Double.stocked !! "tomato" = None)
    by (vm_compute; reflexivity).
  split; [exact Hmissing|].
  exact (proj1 (startByID_missing_entry "recipes" "/recipes" Double.render
    (fun text => text) Double.recorder Double.recorder Double.modal
    Double.recipe_update Double.stocked "tomato" 3%positive Hmissing)).
Defined.

(** X16, witness: a form that answers by asking to receive the submission
    of the lettuce. *)
Lemma form_submission_becomes_put_witness :
  Double.submitting_form (Recipes.recipesForm Double.stocked) (RecipesForm.Other tt) =
    ([RecipesForm.Other tt], Effects.receive (RecipesForm.Submitted Double.lettuce))
  /\ Double.recipes_update_submitting Double.stocked
       (Recipes.RecipesForm (RecipesForm.Other tt)) 3%positive =
       ((Recipes.merge_recipesForm Double.stocked [RecipesForm.Other tt],
         Effects.receive (Recipes.Put Double.lettuce)),
        3%positive).
Proof.
  assert (Hform : Double.submitting_form (Recipes.recipesForm Double.stocked)
      (RecipesForm.Other tt) =
    ([RecipesForm.Other tt], Effects.receive (RecipesForm.Submitted Double.lettuce)))
    by reflexivity.
  split; [exact Hform|].
  exact (proj1 (form_submission_becomes_put "recipes" "/recipes" Double.render
    (fun text => text) Double.recorder Double.submitting_form Double.modal
    Double.recipe_update Double.stocked (RecipesForm.Other tt)
    [RecipesForm.Other tt] Double.lettuce 3%positive Hform)).
Defined.

(** X18, witness: the modal of the doubles keeps order and entries, the
    initial model has the invariant, and so has the state after a put. *)
Lemma update_keeps_index_witness :
  (forall (shown : Double.RecipesModel) (modal : Modal.Action),
     Recipes.order (Double.modal shown modal).1 = Recipes.order shown
     /\ Recipes.entries (Double.modal shown modal).1 = Recipes.entries shown)
  /\ Spec.indexed Double.recipes_init.1
  /\ Spec.indexed
       (Double.recipes_update Double.recipes_init.1 (Recipes.Put Double.lettuce)
          1%positive).1.1.
Proof.
  assert (Hmodal : forall (shown : Double.RecipesModel) (modal : Modal.Action),
     Recipes.order (Double.modal shown modal).1 = Recipes.order shown
     /\ Recipes.entries (Double.modal shown modal).1 = Recipes.entries shown)
    by (intros shown modal; split; reflexivity).
  assert (Hindexed : Spec.indexed Double.recipes_init.1).
  { intros id. simpl. rewrite lookup_empty.
    split; [intros Hin; inversion Hin|intros [entity Hentity]; discriminate]. }
  split; [exact Hmodal|]. split; [exact Hindexed|].
  exact (proj1 (update_keeps_index "recipes" "/recipes" Double.render
    (fun text => text) Double.recorder Double.recorder Double.modal
    Double.recipe_update Double.recipes_init.1 (Recipes.Put Double.lettuce)
    1%positive ([], Effects.none) ([], Effects.none) Hmodal Hindexed)).
Defined.
